(** * pymodbus/server/async.py : the Twisted Modbus server

    A shallow embedding of [ModbusProtocol], [ModbusServerFactory] and the
    [Start*Server] helpers.  Python objects live in a heap of cells addressed
    by references, every method is a computation over a world (heap + trace
    of the calls made on collaborators) that either returns or raises. *)

From Stdlib Require Import ZArith Strings.Byte.
From stdpp Require Import base option list gmap strings.

Open Scope Z_scope.

(** ** Raisables

    The module is Python 2 ([except Exception, ex]).  [SystemExit] and
    [KeyboardInterrupt] derive from [BaseException] directly, and
    [OtherRaisable] stands for any other raisable outside [Exception]
    ([GeneratorExit], an instance of an old-style class); everything else
    listed here is an instance of [Exception].  [Unprintable cls raised] is
    an instance of the [Exception] subclass [cls] whose conversion to a
    string raises [raised] (a message that cannot be encoded, a [__str__]
    that fails). *)
Inductive PyExc : Type :=
| SystemExit
| KeyboardInterrupt
| OtherRaisable (cls : string)
| KeyError
| AttributeError
| TypeError
| ModbusException
| OtherException (cls : string)
| Unprintable (cls : string) (raised : PyExc).

(** [isinstance(ex, Exception)] *)
Definition isinstance_Exception (ex : PyExc) : bool :=
  match ex with
  | SystemExit | KeyboardInterrupt | OtherRaisable _ => false
  | _ => true
  end.

Inductive outcome (A : Type) : Type :=
| Return (a : A)
| Raise (ex : PyExc).
Arguments Return {A} a.
Arguments Raise {A} ex.

(** [str(ex)], as ["%s" % ex] evaluates it: the text, or what the
    conversion raises. *)
Definition PyExc_str (ex : PyExc) : outcome string :=
  match ex with
  | SystemExit => Return "SystemExit"%string
  | KeyboardInterrupt => Return "KeyboardInterrupt"%string
  | OtherRaisable cls => Return cls
  | KeyError => Return "KeyError"%string
  | AttributeError => Return "AttributeError"%string
  | TypeError => Return "TypeError"%string
  | ModbusException => Return "ModbusException"%string
  | OtherException cls => Return cls
  | Unprintable _ raised => Raise raised
  end.

(** ** Values and messages *)

Abbreviation Ref := nat.

(** The framer classes the module names, and any other framer class a caller
    may hand to the factory. *)
Inductive FramerClass : Type :=
| ModbusSocketFramer
| ModbusAsciiFramer
| UserFramer (name : string).

Inductive PyVal : Type :=
| PyNone
| PyInt (z : Z)
| PyStr (s : string)
| PyFramerClass (c : FramerClass)
| PyRef (r : Ref).

(** Modelled from the spec: [pymodbus.pdu.ModbusExceptions] is imported as
    [merror] but is not part of the module; the spec names the fixed
    "execution failure" code, which the code spells [merror.SlaveFailure].
    The other members are the remaining Modbus exception codes. *)
Module merror.
Inductive t : Type :=
| IllegalFunction
| IllegalAddress
| IllegalValue
| SlaveFailure
| Acknowledge
| SlaveBusy
| MemoryParityError
| GatewayPathUnavailable
| GatewayNoResponse.
End merror.

(** Modelled from the spec: a slave context is a per-unit addressable
    register space (the datastore classes are not part of the module). *)
Abbreviation SlaveContext := (gmap Z Z).

(** Modelled from the spec: a response carries the two correlation fields, a
    function code or exception marker, and a payload or an error code. *)
Module Response.
Inductive Body : Type :=
| Normal (payload : list Z)
| Exception (code : merror.t).

Record t : Type := mk {
  transaction_id : Z;
  unit_id : Z;
  function_code : Z;
  body : Body
}.

(** [response.transaction_id = tid; response.unit_id = uid] *)
Definition set_ids (tid uid : Z) (r : t) : t :=
  {| transaction_id := tid; unit_id := uid;
     function_code := function_code r; body := body r |}.
End Response.

(** Modelled from the spec: the request classes ([pymodbus.pdu] and the
    message modules) are not part of the module.  A decoded request is an
    object: its fields and the two methods the server calls on it.
    [execute] runs against a slave context, which it may mutate, and returns
    a response or raises; [doException] builds the error response for a
    code. *)
Module Request.
Record t : Type := mk {
  transaction_id : Z;
  unit_id : Z;
  function_code : Z;
  payload : list Z;
  execute : SlaveContext -> outcome Response.t * SlaveContext;
  doException : merror.t -> Response.t
}.
End Request.

(** ** Heap objects *)
Inductive Obj : Type :=
| ServerDecoder_obj
| ModbusServerContext_obj (slaves : gmap Z SlaveContext)
| ModbusDeviceIdentification_obj (info : gmap Z string)
| ModbusControlBlock_obj (Identity : gmap Z string)
| Framer_obj (cls : FramerClass) (decoder : Ref) (buffer : list byte)
| ModbusProtocol_obj (factory : Ref) (framer : option Ref)
| ModbusServerFactory_obj (decoder : Ref) (framer : PyVal) (store : PyVal)
                          (control : Ref)
| Instance_obj (cls : string) (truth : bool).

(** ** Calls made on collaborators *)
Inductive LogMsg : Type :=
| Msg_ClientConnected (transport : Ref)
| Msg_ClientDisconnected
| Msg_Data (data : list byte)
| Msg_Unable (ex : PyExc)
| Msg_Send (pdu : list byte)
| Msg_StartingTcp (port : Z)
| Msg_StartingUdp (port : Z)
| Msg_StartingSerial (device : PyVal).

Inductive Event : Type :=
| Log_debug (m : LogMsg)
| Log_info (m : LogMsg)
| Call_buildPacket (framer : Ref) (message : Response.t)
| Call_write (protocol : Ref) (pdu : list byte)
| Call_Identity_update (control : Ref) (identity : PyVal)
| Call_listenTCP (port : Z) (factory : Ref)
| Call_listenUDP (port : Z) (factory : Ref)
| Call_SerialPort (protocol : Ref) (device : PyVal) (baudrate : Z)
| Call_reactor_run.

Record World : Type := mkWorld {
  heap : list Obj;
  trace : list Event
}.

(** ** The monad of method bodies *)
Definition M (A : Type) : Type := World -> outcome A * World.

Definition ret {A} (a : A) : M A := fun w => (Return a, w).

Definition bind {A B} (c : M A) (k : A -> M B) : M B :=
  fun w =>
    match c w with
    | (Return a, w') => k a w'
    | (Raise ex, w') => (Raise ex, w')
    end.

Definition raise {A} (ex : PyExc) : M A := fun w => (Raise ex, w).

Declare Scope py_scope.
Delimit Scope py_scope with py.
Notation "x <- c ;; k" := (bind c (fun x => k))
  (at level 20, c at level 99, k at level 200, only parsing) : py_scope.
Notation "c ;; k" := (bind c (fun _ => k))
  (at level 100, k at level 200, only parsing, right associativity) : py_scope.
Open Scope py_scope.

(** [try: body except Exception, ex: handler(ex)] *)
Definition try_except_Exception {A} (body : M A) (handler : PyExc -> M A) : M A :=
  fun w =>
    match body w with
    | (Return a, w') => (Return a, w')
    | (Raise ex, w') =>
        if isinstance_Exception ex then handler ex w' else (Raise ex, w')
    end.

(** [for x in xs: f(x)] *)
Fixpoint for_each {A} (xs : list A) (f : A -> M unit) : M unit :=
  match xs with
  | [] => ret tt
  | x :: xs' => f x ;; for_each xs' f
  end.

Definition emit (e : Event) : M unit :=
  fun w => (Return tt, {| heap := heap w; trace := trace w ++ [e] |}).

(** Object creation: the new cell is the first unused reference. *)
Definition alloc (o : Obj) : M Ref :=
  fun w => (Return (length (heap w)),
            {| heap := heap w ++ [o]; trace := trace w |}).

Definition deref (r : Ref) : M Obj :=
  fun w =>
    match heap w !! r with
    | Some o => (Return o, w)
    | None => (Raise AttributeError, w)
    end.

Definition assign (r : Ref) (o : Obj) : M unit :=
  fun w => (Return tt, {| heap := <[r := o]> (heap w); trace := trace w |}).

(** ** Collaborators that are not part of the module

    [pymodbus.constants.Defaults], the truth value Python assigns to a
    [ModbusServerContext] (its [__nonzero__]/[__len__], if any), and the
    framers' two operations are taken as parameters. *)
Record Collaborators : Type := {
  Defaults_Port : Z;
  Defaults_Baudrate : Z;
  context_truth : gmap Z SlaveContext -> bool;
  decodeFrames : FramerClass -> list byte -> list Request.t * list byte;
  buildPacket : FramerClass -> Response.t -> list byte
}.

(** Twisted's reactor, as the [Start*Server] helpers meet it.  Whether a
    port can be bound and how the event loop ends belong to the platform
    and are parameters. *)
Record Reactor : Type := {
  bind_TCP : Z -> outcome unit;
  bind_UDP : Z -> outcome unit;
  run_loop : outcome unit
}.

Section Server.
Context (env : Collaborators).

(** Python's truth test.  Instances are true unless their class says
    otherwise; a class object is true. *)
Definition truthy (h : list Obj) (v : PyVal) : bool :=
  match v with
  | PyNone => false
  | PyInt z => negb (z =? 0)
  | PyStr s => negb (String.eqb s "")
  | PyFramerClass _ => true
  | PyRef r =>
      match h !! r with
      | Some (ModbusServerContext_obj slaves) => context_truth env slaves
      | Some (Instance_obj _ t) => t
      | _ => true
      end
  end.

(** [x or y]: [y] is evaluated only when [x] is false. *)
Definition py_or (x : PyVal) (y : M PyVal) : M PyVal :=
  fun w => if truthy (heap w) x then (Return x, w) else y w.

(** [isinstance(v, ModbusDeviceIdentification)] *)
Definition isinstance_ModbusDeviceIdentification (h : list Obj) (v : PyVal) : bool :=
  match v with
  | PyRef r =>
      match h !! r with
      | Some (ModbusDeviceIdentification_obj _) => true
      | _ => false
      end
  | _ => false
  end.

(** Modelled from the spec: [ModbusServerContext()] is the empty context. *)
Definition ModbusServerContext_new : M PyVal :=
  r <- alloc (ModbusServerContext_obj ∅) ;; ret (PyRef r).

(** Modelled from the spec: [ModbusControlBlock()] starts with the default,
    empty identity (the docstring of [__init__]: "uses its own empty
    structure"). *)
Definition ModbusControlBlock_new : M Ref :=
  alloc (ModbusControlBlock_obj ∅).

(** Modelled from the spec: [control.Identity.update(identity)] applies the
    override; the entries of [identity] take precedence. *)
Definition Identity_update (control : Ref) (identity : PyVal) : M unit :=
  emit (Call_Identity_update control identity) ;;
  c <- deref control ;;
  match c, identity with
  | ModbusControlBlock_obj cur, PyRef r =>
      i <- deref r ;;
      match i with
      | ModbusDeviceIdentification_obj info =>
          assign control (ModbusControlBlock_obj (info ∪ cur))
      | _ => raise TypeError
      end
  | _, _ => raise TypeError
  end.

(** *** class ModbusServerFactory *)

(** [ModbusServerFactory(store, framer, identity)]: the body of [__init__]
    computes the four attributes; the instance is the cell holding them. *)
Definition ModbusServerFactory (store framer identity : PyVal) : M Ref :=
  decoder <- alloc ServerDecoder_obj ;;
  framer' <- py_or framer (ret (PyFramerClass ModbusSocketFramer)) ;;
  store' <- py_or store ModbusServerContext_new ;;
  control <- ModbusControlBlock_new ;;
  self <- alloc (ModbusServerFactory_obj decoder framer' store' control) ;;
  (fun w =>
     if isinstance_ModbusDeviceIdentification (heap w) identity
     then Identity_update control identity w
     else ret tt w) ;;
  ret self.

(** Twisted's [Factory.buildProtocol]: [p = self.protocol(); p.factory = self]. *)
Definition buildProtocol (factory : Ref) : M Ref :=
  alloc (ModbusProtocol_obj factory None).

(** *** Attribute reads *)
Definition self_factory (self : Ref) : M Ref :=
  o <- deref self ;;
  match o with
  | ModbusProtocol_obj fac _ => ret fac
  | _ => raise AttributeError
  end.

Definition self_framer (self : Ref) : M Ref :=
  o <- deref self ;;
  match o with
  | ModbusProtocol_obj _ (Some f) => ret f
  | _ => raise AttributeError
  end.

Definition factory_decoder (fac : Ref) : M Ref :=
  o <- deref fac ;;
  match o with
  | ModbusServerFactory_obj d _ _ _ => ret d
  | _ => raise AttributeError
  end.

Definition factory_framer (fac : Ref) : M PyVal :=
  o <- deref fac ;;
  match o with
  | ModbusServerFactory_obj _ f _ _ => ret f
  | _ => raise AttributeError
  end.

Definition factory_store (fac : Ref) : M PyVal :=
  o <- deref fac ;;
  match o with
  | ModbusServerFactory_obj _ _ s _ => ret s
  | _ => raise AttributeError
  end.

(** *** Framer operations *)

(** Modelled from the spec: the framer classes are not part of the module.
    Calling a framer class makes a new instance, bound to the decoder, with
    nothing buffered; anything that is not a class cannot be called. *)
Definition Framer_call (cls : PyVal) (decoder : Ref) : M Ref :=
  match cls with
  | PyFramerClass c => alloc (Framer_obj c decoder [])
  | _ => raise TypeError
  end.

(** Modelled from the spec: [framer.processIncomingPacket(data, callback)]
    appends the chunk to the instance's buffer, takes the complete requests
    off the buffer and calls back once per request, in decoding order. *)
Definition processIncomingPacket (f : Ref) (data : list byte)
    (callback : Request.t -> M unit) : M unit :=
  o <- deref f ;;
  match o with
  | Framer_obj c d buf =>
      assign f (Framer_obj c d (decodeFrames env c (buf ++ data)).2) ;;
      for_each (decodeFrames env c (buf ++ data)).1 callback
  | _ => raise AttributeError
  end.

(** Modelled from the spec: [framer.buildPacket(message)] serialises a
    response into wire bytes. *)
Definition Framer_buildPacket (f : Ref) (message : Response.t) : M (list byte) :=
  o <- deref f ;;
  match o with
  | Framer_obj c _ _ =>
      emit (Call_buildPacket f message) ;; ret (buildPacket env c message)
  | _ => raise AttributeError
  end.

(** *** Datastore operations *)

(** Modelled from the spec: [store[unit]] on the datastore context, a
    mapping from unit ids to slave contexts whose lookup fails when the unit
    is not present.  A slave context is handed out by reference: the handle
    names the store object and the unit.  The spec knows no other kind of
    store; the lookup on one is taken to fail, and what is stated about
    answering requests is stated for a datastore context. *)
Definition store_getitem (store : PyVal) (unit : Z) : M (Ref * Z) :=
  match store with
  | PyRef r =>
      o <- deref r ;;
      match o with
      | ModbusServerContext_obj slaves =>
          match slaves !! unit with
          | Some _ => ret (r, unit)
          | None => raise KeyError
          end
      | _ => raise TypeError
      end
  | _ => raise TypeError
  end.

(** [request.execute(context)]: runs the request's method on the slave
    context and leaves the context as the method left it. *)
Definition Request_execute (request : Request.t) (context : Ref * Z) : M Response.t :=
  fun w =>
    match heap w !! context.1 with
    | Some (ModbusServerContext_obj slaves) =>
        match slaves !! context.2 with
        | Some c =>
            ((Request.execute request c).1,
             {| heap := <[context.1 :=
                           ModbusServerContext_obj
                             (<[context.2 := (Request.execute request c).2]> slaves)]>
                        (heap w);
                trace := trace w |})
        | None => (Raise AttributeError, w)
        end
    | _ => (Raise AttributeError, w)
    end.

(** *** class ModbusProtocol *)

Definition connectionMade (self : Ref) : M unit :=
  emit (Log_debug (Msg_ClientConnected self)) ;;
  fac <- self_factory self ;;
  cls <- factory_framer fac ;;
  fac' <- self_factory self ;;
  dec <- factory_decoder fac' ;;
  f <- Framer_call cls dec ;;
  assign self (ModbusProtocol_obj fac (Some f)).

Definition connectionLost (self : Ref) (reason : PyVal) : M unit :=
  emit (Log_debug Msg_ClientDisconnected).

Definition send (self : Ref) (message : Response.t) : M unit :=
  f <- self_framer self ;;
  pdu <- Framer_buildPacket f message ;;
  emit (Log_debug (Msg_Send pdu)) ;;
  emit (Call_write self pdu).

(** [self.factory.store] *)
Definition self_factory_store (self : Ref) : M PyVal :=
  fac <- self_factory self ;; factory_store fac.

(** The [try] suite of [execute]. *)
Definition execute_try (self : Ref) (request : Request.t) : M Response.t :=
  store <- self_factory_store self ;;
  context <- store_getitem store (Request.unit_id request) ;;
  Request_execute request context.

(** ["Datastore unable to fulfill request %s" % ex]: the text, or what
    converting [ex] to a string raises. *)
Definition format_unable (ex : PyExc) : M string :=
  fun w => (PyExc_str ex, w).

(** The [except Exception, ex] suite of [execute]: the message is formatted
    before it is logged, and the error response is built after that. *)
Definition execute_except (request : Request.t) (ex : PyExc) : M Response.t :=
  format_unable ex ;;
  emit (Log_debug (Msg_Unable ex)) ;;
  ret (Request.doException request merror.SlaveFailure).

(** Everything [execute] does before [send]: the [try] statement and the
    two assignments to the response. *)
Definition execute_response (self : Ref) (request : Request.t) : M Response.t :=
  response <- try_except_Exception (execute_try self request)
                                   (execute_except request) ;;
  ret (Response.set_ids (Request.transaction_id request)
                        (Request.unit_id request) response).

Definition execute (self : Ref) (request : Request.t) : M unit :=
  response <- execute_response self request ;;
  send self response.

Definition dataReceived (self : Ref) (data : list byte) : M unit :=
  emit (Log_debug (Msg_Data data)) ;;
  f <- self_framer self ;;
  processIncomingPacket f data (execute self).

(** *** Starting factories *)

Definition kwargs_getitem (kwargs : gmap string PyVal) (key : string) : M PyVal :=
  match kwargs !! key with
  | Some v => ret v
  | None => raise KeyError
  end.

(** Twisted's [makeConnection], the method through which a transport
    connects the protocol object it was given: it calls the object's
    [connectionMade].  Protocol objects have it; a factory, which derives
    from [ServerFactory], has not. *)
Definition makeConnection (self : Ref) : M unit :=
  o <- deref self ;;
  match o with
  | ModbusProtocol_obj _ _ => connectionMade self
  | _ => raise AttributeError
  end.

(** Twisted's [reactor.listenTCP(port, factory)]: the port is bound, which
    the platform may refuse; the factory is kept for the connections to
    come. *)
Definition listenTCP (reactor : Reactor) (port : Z) (factory : Ref) : M unit :=
  emit (Call_listenTCP port factory) ;;
  (fun w => (bind_TCP reactor port, w)).

(** Twisted's [reactor.listenUDP(port, protocol)]: the port is bound and is
    then connected to the object given as [protocol], through that object's
    [makeConnection]. *)
Definition listenUDP (reactor : Reactor) (port : Z) (protocol : Ref) : M unit :=
  emit (Call_listenUDP port protocol) ;;
  (fun w => (bind_UDP reactor port, w)) ;;
  makeConnection protocol.

(** Twisted's [reactor.run()]: the call and the way the loop ends.  What the
    loop dispatches in between is the sequence of [Call]s below. *)
Definition reactor_run (reactor : Reactor) : M unit :=
  emit Call_reactor_run ;;
  (fun w => (run_loop reactor, w)).

Definition StartTcpServer (reactor : Reactor) (context identity : PyVal) : M unit :=
  emit (Log_info (Msg_StartingTcp (Defaults_Port env))) ;;
  factory <- ModbusServerFactory context (PyFramerClass ModbusSocketFramer) identity ;;
  listenTCP reactor (Defaults_Port env) factory ;;
  reactor_run reactor.

Definition StartUdpServer (reactor : Reactor) (context identity : PyVal) : M unit :=
  emit (Log_info (Msg_StartingUdp (Defaults_Port env))) ;;
  factory <- ModbusServerFactory context (PyFramerClass ModbusSocketFramer) identity ;;
  listenUDP reactor (Defaults_Port env) factory ;;
  reactor_run reactor.

(** [framer] is [None] when the caller leaves the keyword out: the default
    of the signature, [ModbusAsciiFramer], is then used.  The constructor
    of [SerialPort] and [reactor.run()] stand as the calls made, with the
    arguments they get. *)
Definition StartSerialServer (context identity : PyVal) (framer : option PyVal)
    (kwargs : gmap string PyVal) : M unit :=
  dev <- kwargs_getitem kwargs "device" ;;
  emit (Log_info (Msg_StartingSerial dev)) ;;
  factory <- ModbusServerFactory context
               (default (PyFramerClass ModbusAsciiFramer) framer) identity ;;
  protocol <- buildProtocol factory ;;
  dev' <- kwargs_getitem kwargs "device" ;;
  emit (Call_SerialPort protocol dev' (Defaults_Baudrate env)) ;;
  emit Call_reactor_run.

End Server.

(** ** Reading a trace *)

(** The responses handed to a framer for serialisation, in order. *)
Fixpoint messages (tr : list Event) : list Response.t :=
  match tr with
  | [] => []
  | Call_buildPacket _ m :: tr' => m :: messages tr'
  | _ :: tr' => messages tr'
  end.

(** The packets written to transports, with the handler that wrote them. *)
Fixpoint writes (tr : list Event) : list (Ref * list byte) :=
  match tr with
  | [] => []
  | Call_write p pdu :: tr' => (p, pdu) :: writes tr'
  | _ :: tr' => writes tr'
  end.

(** The identity overrides applied to control blocks. *)
Fixpoint identity_updates (tr : list Event) : list (Ref * PyVal) :=
  match tr with
  | [] => []
  | Call_Identity_update c i :: tr' => (c, i) :: identity_updates tr'
  | _ :: tr' => identity_updates tr'
  end.

(** The serial ports opened. *)
Fixpoint serial_ports (tr : list Event) : list (Ref * PyVal * Z) :=
  match tr with
  | [] => []
  | Call_SerialPort p dev baud :: tr' => (p, dev, baud) :: serial_ports tr'
  | _ :: tr' => serial_ports tr'
  end.

(** The events a computation adds to the trace of the world it starts in. *)
Definition new_events {A} (c : M A) (w : World) : list Event :=
  drop (length (trace w)) (trace (c w).2).

(** What [send] records for a message [m] of handler [self], whose framer
    [f] is of class [c]. *)
Definition sent_events (env : Collaborators) (self f : Ref) (c : FramerClass)
    (m : Response.t) : list Event :=
  [Call_buildPacket f m;
   Log_debug (Msg_Send (buildPacket env c m));
   Call_write self (buildPacket env c m)].

(** The correlation fields of a response are those of a request. *)
Definition ids_match (request : Request.t) (response : Response.t) : Prop :=
  Response.transaction_id response = Request.transaction_id request ∧
  Response.unit_id response = Request.unit_id request.

(** The error response [execute] builds for a request. *)
Definition error_response (request : Request.t) : Response.t :=
  Response.set_ids (Request.transaction_id request) (Request.unit_id request)
                   (Request.doException request merror.SlaveFailure).

(** An instance of [Exception] that the log line of [execute] can format. *)
Definition loggable (ex : PyExc) : Prop :=
  isinstance_Exception ex = true ∧ ∃ text, PyExc_str ex = Return text.

(** A request whose [execute] method only ever raises instances of
    [Exception] that the log line can format. *)
Definition raises_only_loggable (request : Request.t) : Prop :=
  ∀ ctx ex, (Request.execute request ctx).1 = Raise ex → loggable ex.

(** A handler with a framer instance of its own. *)
Definition connected (h : list Obj) (self fac f : Ref) (c : FramerClass)
    (d : Ref) (buf : list byte) : Prop :=
  h !! self = Some (ModbusProtocol_obj fac (Some f)) ∧
  h !! f = Some (Framer_obj c d buf).

(** The store of factory [fac] is a datastore context with these slaves. *)
Definition factory_slaves (h : list Obj) (fac : Ref) (slaves : gmap Z SlaveContext) : Prop :=
  ∃ dec fr s ctl,
    h !! fac = Some (ModbusServerFactory_obj dec fr (PyRef s) ctl) ∧
    h !! s = Some (ModbusServerContext_obj slaves).

(** The store of factory [fac] has no entry for [unit]. *)
Definition no_entry (h : list Obj) (fac : Ref) (unit : Z) : Prop :=
  ∃ slaves, factory_slaves h fac slaves ∧ slaves !! unit = None.

(** The store of factory [fac] has an entry for the unit of [request], and
    executing [request] against it raises [ex]. *)
Definition execution_raises (h : list Obj) (fac : Ref) (request : Request.t)
    (ex : PyExc) : Prop :=
  ∃ slaves ctx,
    factory_slaves h fac slaves ∧
    slaves !! Request.unit_id request = Some ctx ∧
    (Request.execute request ctx).1 = Raise ex.

(** [response] answers [request]: it carries the ids of the request and is
    either what the request's execution returned or the request's error
    response. *)
Definition answers (request : Request.t) (response : Response.t) : Prop :=
  ids_match request response ∧
  (response = error_response request ∨
   ∃ ctx r, (Request.execute request ctx).1 = Return r ∧
            response = Response.set_ids (Request.transaction_id request)
                                        (Request.unit_id request) r).

(** The entries of a device identification, when [v] is one. *)
Definition identity_info (h : list Obj) (v : PyVal) : gmap Z string :=
  match v with
  | PyRef r =>
      match h !! r with
      | Some (ModbusDeviceIdentification_obj info) => info
      | _ => ∅
      end
  | _ => ∅
  end.

(** ** Heap footprints *)

(** One write to a datastore context. *)
Inductive store_step (h : list Obj) : list Obj → Prop :=
| store_write s slaves slaves' :
    h !! s = Some (ModbusServerContext_obj slaves) →
    store_step h (<[s := ModbusServerContext_obj slaves']> h).

Definition is_context (o : Obj) : bool :=
  match o with ModbusServerContext_obj _ => true | _ => false end.

(** The in-place updates the server makes: a datastore context, a control
    block's identity and a framer's buffer change their contents; a framer
    keeps its class and decoder. *)
Definition mutable (o o' : Obj) : Prop :=
  match o, o' with
  | ModbusServerContext_obj _, ModbusServerContext_obj _ => True
  | ModbusControlBlock_obj _, ModbusControlBlock_obj _ => True
  | Framer_obj c d _, Framer_obj c' d' _ => c = c' ∧ d = d'
  | _, _ => False
  end.

(** A handler that has a framer. *)
Definition has_framer (o : Obj) : bool :=
  match o with ModbusProtocol_obj _ (Some _) => true | _ => false end.

(** One heap step that is not the binding of a framer to a handler: an
    in-place update or the creation of an object. *)
Inductive cell_step (h : list Obj) : list Obj → Prop :=
| cell_update s o o' :
    h !! s = Some o → mutable o o' → cell_step h (<[s := o']> h)
| cell_alloc o :
    has_framer o = false → cell_step h (h ++ [o]).

(** ** The life of a server: the calls Twisted makes *)
Inductive Call : Type :=
| New_factory (store framer identity : PyVal)
| Build_protocol (factory : Ref)
| Connection_made (self : Ref)
| Data_received (self : Ref) (data : list byte)
| Connection_lost (self : Ref) (reason : PyVal).

Definition run (env : Collaborators) (c : Call) : M unit :=
  match c with
  | New_factory store framer identity =>
      ModbusServerFactory env store framer identity ;; ret tt
  | Build_protocol factory => buildProtocol factory ;; ret tt
  | Connection_made self => connectionMade self
  | Data_received self data => dataReceived env self data
  | Connection_lost self reason => connectionLost self reason
  end.

(** Before the server starts there are no handlers. *)
Definition initial (w : World) : Prop :=
  ∀ r fac f, heap w !! r ≠ Some (ModbusProtocol_obj fac f).

Inductive reachable (env : Collaborators) : World → Prop :=
| reachable_initial w : initial w → reachable env w
| reachable_call w c : reachable env w → reachable env (run env c w).2.

(** No framer instance belongs to two handlers. *)
Definition no_sharing (h : list Obj) : Prop :=
  ∀ p q fp fq f,
    h !! p = Some (ModbusProtocol_obj fp (Some f)) →
    h !! q = Some (ModbusProtocol_obj fq (Some f)) → p = q.

(** The framer of a handler is a framer instance. *)
Definition framers_live (h : list Obj) : Prop :=
  ∀ p fp f,
    h !! p = Some (ModbusProtocol_obj fp (Some f)) →
    ∃ c d buf, h !! f = Some (Framer_obj c d buf).

(** Both invariants of the handlers' framers. *)
Definition framers_owned (h : list Obj) : Prop :=
  no_sharing h ∧ framers_live h.

(** A sequence of calls, each run in the world the previous one left. *)
Definition run_all (env : Collaborators) (calls : list Call) (w : World) : World :=
  foldl (λ w c, (run env c w).2) w calls.

(** ** Concrete scenarios

    A store with units 1 and 3, a framer whose frames are two bytes
    (transaction id, unit id), a read of holding registers 0 and 1, and a
    request whose execution exits the interpreter. *)

Definition demo_read (tid uid : Z) : Request.t :=
  {| Request.transaction_id := tid;
     Request.unit_id := uid;
     Request.function_code := 3;
     Request.payload := [0; 2];
     Request.execute := fun c =>
       (match c !! 0, c !! 1 with
        | Some a, Some b => Return (Response.mk 0 0 3 (Response.Normal [a; b]))
        | _, _ => Raise (OtherException "IllegalAddress")
        end, c);
     Request.doException := fun code =>
       Response.mk 0 0 131 (Response.Exception code) |}.

Definition demo_exit (tid uid : Z) : Request.t :=
  {| Request.transaction_id := tid;
     Request.unit_id := uid;
     Request.function_code := 3;
     Request.payload := [];
     Request.execute := fun c => (Raise SystemExit, c);
     Request.doException := fun code =>
       Response.mk 0 0 131 (Response.Exception code) |}.

Fixpoint demo_frames (mk : Z → Z → Request.t) (l : list byte)
    : list Request.t * list byte :=
  match l with
  | a :: b :: r =>
      (mk (Z.of_N (Byte.to_N a)) (Z.of_N (Byte.to_N b)) :: (demo_frames mk r).1,
       (demo_frames mk r).2)
  | r => ([], r)
  end.

Definition demo_env (mk : Z → Z → Request.t) : Collaborators :=
  {| Defaults_Port := 502;
     Defaults_Baudrate := 19200;
     context_truth := fun slaves => negb (bool_decide (slaves = ∅));
     decodeFrames := fun _ l => demo_frames mk l;
     buildPacket := fun _ r =>
       [Byte.x00; Byte.x00] |}.

(** Cell 0: the store (unit 1 with two registers, unit 3 with none);
    cell 1: a device identification. *)
Definition demo_heap : list Obj :=
  [ModbusServerContext_obj {[ 1 := {[ 0 := 10; 1 := 20 ]}; 3 := ∅ ]};
   ModbusDeviceIdentification_obj {[ 0 := "pymodbus"%string ]}].

Definition demo_start : World := {| heap := demo_heap; trace := [] |}.

(** A factory over the demo store (cell 4: decoder in cell 2, control block
    in cell 3) and one connected handler (cell 5) whose framer (cell 6) holds
    the bytes [buf]. *)
Definition demo_connected (buf : list byte) : World :=
  {| heap := demo_heap ++
       [ServerDecoder_obj;
        ModbusControlBlock_obj ∅;
        ModbusServerFactory_obj 2%nat (PyFramerClass ModbusSocketFramer)
                                (PyRef 0%nat) 3%nat;
        ModbusProtocol_obj 4%nat (Some 6%nat);
        Framer_obj ModbusSocketFramer 2%nat buf];
     trace := [] |}.

(** The same with a second connected handler of the factory (cell 7) whose
    framer (cell 8) holds [buf']. *)
Definition demo_two (buf buf' : list byte) : World :=
  {| heap := heap (demo_connected buf) ++
       [ModbusProtocol_obj 4%nat (Some 8%nat);
        Framer_obj ModbusSocketFramer 2%nat buf'];
     trace := [] |}.

(** The calls that lead from [demo_start] to two connected handlers of one
    factory, the first with a byte in its buffer. *)
Definition demo_calls : list Call :=
  [New_factory (PyRef 0%nat) PyNone PyNone;
   Build_protocol 4%nat;
   Connection_made 5%nat;
   Data_received 5%nat [Byte.x05];
   Build_protocol 4%nat;
   Connection_made 7%nat].

(** A world whose only object is a datastore context without slaves, which
    [demo_env] reports as false. *)
Definition demo_empty_store : World :=
  {| heap := [ModbusServerContext_obj ∅]; trace := [] |}.

(** ** What stays fixed over the life of a server *)

(** Between two heaps every factory keeps its four attributes and every
    handler keeps its factory. *)
Definition config_kept (h h' : list Obj) : Prop :=
  (∀ fac d fr st ctl,
     h !! fac = Some (ModbusServerFactory_obj d fr st ctl) →
     h' !! fac = Some (ModbusServerFactory_obj d fr st ctl)) ∧
  (∀ p fac fr,
     h !! p = Some (ModbusProtocol_obj fac fr) →
     ∃ fr', h' !! p = Some (ModbusProtocol_obj fac fr')).

(** ** [install_specialized_reactor]

    The function touches no object of the server: it imports three reactor
    modules, calls [install] on them and logs.  Whether a module can be
    imported and what its [install] does belong to the platform and are
    parameters; what the function does is read off the events it leaves. *)
Inductive ReactorModule : Type :=
| epollreactor
| kqreactor
| iocpreactor.

Record Platform : Type := {
  import_module : ReactorModule -> outcome unit;
  reactor_install : ReactorModule -> outcome unit
}.

Inductive ReactorEvent : Type :=
| Call_install (r : ReactorModule)
| Log_Installed (r : ReactorModule)
| Log_No_specialized_reactor.

(** [from twisted.internet import epollreactor, kqreactor, iocpreactor]: the
    names are imported in order and the first failure is raised. *)
Fixpoint import_from (plat : Platform) (names : list ReactorModule) : outcome unit :=
  match names with
  | [] => Return tt
  | r :: names' =>
      match import_module plat r with
      | Return _ => import_from plat names'
      | Raise ex => Raise ex
      end
  end.

(** The [for] loop and what follows it: [try: reactor.install(); log;
    return True] with a bare [except: pass], which catches every raisable,
    then the log line and [return False]. *)
Fixpoint install_loop (plat : Platform) (reactors : list ReactorModule)
    : bool * list ReactorEvent :=
  match reactors with
  | [] => (false, [Log_No_specialized_reactor])
  | r :: reactors' =>
      match reactor_install plat r with
      | Return _ => (true, [Call_install r; Log_Installed r])
      | Raise _ =>
          ((install_loop plat reactors').1,
           Call_install r :: (install_loop plat reactors').2)
      end
  end.

Definition install_specialized_reactor (plat : Platform)
    : outcome bool * list ReactorEvent :=
  match import_from plat [epollreactor; kqreactor; iocpreactor] with
  | Return _ =>
      (Return (install_loop plat [epollreactor; kqreactor; iocpreactor]).1,
       (install_loop plat [epollreactor; kqreactor; iocpreactor]).2)
  | Raise ex => (Raise ex, [])
  end.

(** The modules on which [install] was called, in order. *)
Fixpoint install_calls (evs : list ReactorEvent) : list ReactorModule :=
  match evs with
  | [] => []
  | Call_install r :: evs' => r :: install_calls evs'
  | _ :: evs' => install_calls evs'
  end.

(** A platform on which every module imports, [epollreactor] cannot be
    installed (its [install] exits the interpreter) and [kqreactor] can. *)
Definition demo_platform : Platform :=
  {| import_module := fun _ => Return tt;
     reactor_install := fun r =>
       match r with
       | epollreactor => Raise SystemExit
       | kqreactor => Return tt
       | iocpreactor => Raise (OtherException "ImportError")
       end |}.

(** A Linux-like platform: only [epollreactor] can be imported. *)
Definition demo_linux : Platform :=
  {| import_module := fun r =>
       match r with
       | epollreactor => Return tt
       | _ => Raise (OtherException "ImportError")
       end;
     reactor_install := fun _ => Return tt |}.

(** A request that writes [v] to register 0 of its unit and raises
    afterwards. *)
Definition demo_write_then_fail (tid uid v : Z) : Request.t :=
  {| Request.transaction_id := tid;
     Request.unit_id := uid;
     Request.function_code := 6;
     Request.payload := [0; v];
     Request.execute := fun c =>
       (Raise (OtherException "IOError"), <[0 := v]> c);
     Request.doException := fun code =>
       Response.mk 0 0 134 (Response.Exception code) |}.

(** A request whose execution raises an instance of [Exception] that cannot
    be converted to a string: its message does not encode. *)
Definition demo_unprintable (tid uid : Z) : Request.t :=
  {| Request.transaction_id := tid;
     Request.unit_id := uid;
     Request.function_code := 3;
     Request.payload := [];
     Request.execute := fun c =>
       (Raise (Unprintable "Exception" (OtherException "UnicodeEncodeError")), c);
     Request.doException := fun code =>
       Response.mk 0 0 131 (Response.Exception code) |}.

(** A reactor of a process that may not bind a TCP port below 1024, may bind
    any UDP port, and whose loop stops in the end. *)
Definition demo_reactor : Reactor :=
  {| bind_TCP := fun port =>
       if port <? 1024 then Raise (OtherException "CannotListenError")
       else Return tt;
     bind_UDP := fun _ => Return tt;
     run_loop := Return tt |}.

(** A handler of the demo factory that has not been connected (cell 5). *)
Definition demo_unconnected : World :=
  {| heap := demo_heap ++
       [ServerDecoder_obj;
        ModbusControlBlock_obj ∅;
        ModbusServerFactory_obj 2%nat (PyFramerClass ModbusSocketFramer)
                                (PyRef 0%nat) 3%nat;
        ModbusProtocol_obj 4%nat None];
     trace := [] |}.

(** * Properties *)

(** ** The monad and the trace *)

Lemma messages_app tr1 tr2 : messages (tr1 ++ tr2) = messages tr1 ++ messages tr2.
Proof.
  induction tr1 as [|e tr1 IH]; [done|].
  destruct e; simpl; rewrite IH; done.
Qed.

Lemma writes_app tr1 tr2 : writes (tr1 ++ tr2) = writes tr1 ++ writes tr2.
Proof.
  induction tr1 as [|e tr1 IH]; [done|].
  destruct e; simpl; rewrite IH; done.
Qed.

Lemma new_events_app {A} (c : M A) w evs :
  trace (c w).2 = trace w ++ evs → new_events c w = evs.
Proof. intros E. unfold new_events. rewrite E. apply drop_app_length. Qed.

(** ** Writes to the store leave everything else alone *)

Lemma store_step_length h h' : store_step h h' → length h' = length h.
Proof. destruct 1. apply length_insert. Qed.

Lemma store_step_other h h' r o :
  store_step h h' → h !! r = Some o → is_context o = false → h' !! r = Some o.
Proof.
  destruct 1 as [s slaves slaves' Hs]. intros Hr Ho.
  destruct (decide (s = r)) as [->|Hne].
  - rewrite Hs in Hr. by simplify_eq.
  - by rewrite list_lookup_insert_ne.
Qed.

Lemma store_steps_length h h' : rtc store_step h h' → length h' = length h.
Proof.
  induction 1 as [|h1 h2 h3 H12 _ IH]; [done|].
  rewrite IH. by apply store_step_length.
Qed.

Lemma store_steps_other h h' r o :
  rtc store_step h h' → h !! r = Some o → is_context o = false → h' !! r = Some o.
Proof.
  induction 1 as [|h1 h2 h3 H12 _ IH]; [done|].
  intros Hr Ho. apply IH; [|done]. by eapply store_step_other.
Qed.

Lemma store_steps_connected h h' self fac f c d buf :
  rtc store_step h h' → connected h self fac f c d buf → connected h' self fac f c d buf.
Proof.
  intros Hs [Hp Hf]. split; by eapply store_steps_other.
Qed.

(** ** [execute] *)

Ltac run_monad :=
  repeat (simpl in *;
          match goal with
          | |- context [match ?x with _ => _ end] =>
              lazymatch x with
              | context [match _ with _ => _ end] => fail
              | _ => destruct x eqn:?
              end
          end).

Lemma execute_try_footprint self request w :
  trace (execute_try self request w).2 = trace w ∧
  rtc store_step (heap w) (heap (execute_try self request w).2).
Proof.
  unfold execute_try, self_factory_store, self_factory, factory_store,
    store_getitem, Request_execute, deref, bind, ret, raise.
  run_monad; simplify_eq/=; split; try done.
  all: try (apply rtc_once; by econstructor).
Qed.

(** What the part of [execute] before [send] does, in terms of what the
    [try] suite does. *)
Lemma execute_response_eq self request w :
  execute_response self request w =
    match execute_try self request w with
    | (Return response, w1) =>
        (Return (Response.set_ids (Request.transaction_id request)
                                  (Request.unit_id request) response), w1)
    | (Raise ex, w1) =>
        if isinstance_Exception ex
        then match PyExc_str ex with
             | Return _ =>
                 (Return (error_response request),
                  {| heap := heap w1;
                     trace := trace w1 ++ [Log_debug (Msg_Unable ex)] |})
             | Raise ex' => (Raise ex', w1)
             end
        else (Raise ex, w1)
    end.
Proof.
  unfold execute_response, try_except_Exception, execute_except, format_unable,
    bind, emit, ret.
  destruct (execute_try self request w) as [[response|ex] w1]; [done|].
  destruct (isinstance_Exception ex); [|done].
  by destruct (PyExc_str ex).
Qed.

Lemma send_connected env self message w fac f c d buf :
  connected (heap w) self fac f c d buf →
  send env self message w =
    (Return tt, {| heap := heap w;
                   trace := trace w ++ sent_events env self f c message |}).
Proof.
  intros [Hp Hf].
  unfold send, self_framer, Framer_buildPacket, deref, bind, ret, raise, emit.
  simpl. rewrite Hp. simpl. rewrite Hf. simpl.
  by rewrite <- !app_assoc.
Qed.

(** What [execute] does for a connected handler, in terms of what the [try]
    suite does. *)
Lemma execute_connected env self request w fac f c d buf :
  connected (heap w) self fac f c d buf →
  execute env self request w =
    match execute_try self request w with
    | (Return response, w1) =>
        (Return tt,
         {| heap := heap w1;
            trace := trace w ++
              sent_events env self f c
                (Response.set_ids (Request.transaction_id request)
                                  (Request.unit_id request) response) |})
    | (Raise ex, w1) =>
        if isinstance_Exception ex
        then match PyExc_str ex with
             | Return _ =>
                 (Return tt,
                  {| heap := heap w1;
                     trace := trace w ++
                       Log_debug (Msg_Unable ex) ::
                       sent_events env self f c (error_response request) |})
             | Raise ex' => (Raise ex', w1)
             end
        else (Raise ex, w1)
    end.
Proof.
  intros Hc.
  destruct (execute_try_footprint self request w) as [Htr Hst].
  pose proof (store_steps_connected _ _ _ _ _ _ _ _ Hst Hc) as Hc1.
  unfold execute, bind. rewrite execute_response_eq.
  destruct (execute_try self request w) as [[response|ex] w1]; simpl in *.
  - erewrite send_connected by done. by rewrite Htr.
  - destruct (isinstance_Exception ex); [|done].
    destruct (PyExc_str ex); [|done].
    erewrite send_connected by done. simpl.
    rewrite Htr, <- app_assoc. done.
Qed.

Lemma send_trace env self message w :
  ∃ evs, trace (send env self message w).2 = trace w ++ evs ∧
         (messages evs = [] ∨ messages evs = [message]).
Proof.
  unfold send, self_framer, Framer_buildPacket, deref, bind, ret, raise, emit.
  run_monad; simplify_eq/=.
  all: try (exists []; rewrite app_nil_r; by auto).
  eexists [_; _; _]. rewrite <- !app_assoc. simpl. split; [done|]. by right.
Qed.

Lemma execute_trace env self request w :
  ∃ evs, trace (execute env self request w).2 = trace w ++ evs ∧
         (messages evs = [] ∨
          ∃ response,
            messages evs = [Response.set_ids (Request.transaction_id request)
                                             (Request.unit_id request) response]).
Proof.
  destruct (execute_try_footprint self request w) as [Htr _].
  unfold execute, bind. rewrite execute_response_eq.
  destruct (execute_try self request w) as [[response|ex] w1]; simpl in *.
  - destruct (send_trace env self
                (Response.set_ids (Request.transaction_id request)
                                  (Request.unit_id request) response) w1)
      as (evs & E & Hm).
    exists evs. rewrite E, Htr. split; [done|].
    destruct Hm; [by left|right; by eexists].
  - destruct (isinstance_Exception ex); [destruct (PyExc_str ex)|].
    + match goal with |- context [send env self ?m ?w'] =>
        destruct (send_trace env self m w') as (evs & E & Hm) end.
      simpl in E. exists (Log_debug (Msg_Unable ex) :: evs).
      rewrite E, Htr, <- app_assoc. split; [done|]. simpl.
      destruct Hm; [by left|right; by eexists].
    + exists []. rewrite app_nil_r. auto.
    + exists []. rewrite app_nil_r. auto.
Qed.

Lemma execute_messages env self request w fac f c d buf :
  connected (heap w) self fac f c d buf →
  messages (new_events (execute env self request) w) =
    match (execute_try self request w).1 with
    | Return response =>
        [Response.set_ids (Request.transaction_id request)
                          (Request.unit_id request) response]
    | Raise ex =>
        if isinstance_Exception ex
        then match PyExc_str ex with
             | Return _ => [error_response request]
             | Raise _ => []
             end
        else []
    end.
Proof.
  intros Hc.
  destruct (execute_try_footprint self request w) as [Htr _].
  pose proof (execute_connected env self request w _ _ _ _ _ Hc) as E.
  destruct (execute_try self request w) as [[response|ex] w1]; simpl in *.
  - erewrite new_events_app by (rewrite E; done). done.
  - destruct (isinstance_Exception ex); [destruct (PyExc_str ex)|].
    + erewrite new_events_app by (rewrite E; done). done.
    + erewrite (new_events_app _ _ []); [done|].
      rewrite E. simpl. by rewrite app_nil_r.
    + erewrite (new_events_app _ _ []); [done|].
      rewrite E. simpl. by rewrite app_nil_r.
Qed.

Lemma execute_response_ids self request w :
  match (execute_response self request w).1 with
  | Return response => ids_match request response
  | Raise _ => True
  end.
Proof.
  rewrite execute_response_eq.
  destruct (execute_try self request w) as [[response|ex] w1]; [done|].
  destruct (isinstance_Exception ex); [|done].
  by destruct (PyExc_str ex).
Qed.

(** C1.  The response [execute] passes to [send] carries the transaction id
    and the unit id of the request, so does every response that reaches a
    framer; for a handler that has its framer, the success path sends the
    store's response with the two fields overwritten and the error path,
    when the caught exception can be formatted for the log line, sends the
    error response with the two fields overwritten. *)
Theorem execute_copies_ids env self request w :
  (∀ response w1,
     execute_response self request w = (Return response, w1) →
     execute env self request w = send env self response w1 ∧
     ids_match request response) ∧
  Forall (ids_match request)
         (messages (new_events (execute env self request) w)) ∧
  ∀ fac f c d buf,
    connected (heap w) self fac f c d buf →
    messages (new_events (execute env self request) w) =
      match (execute_try self request w).1 with
      | Return response =>
          [Response.set_ids (Request.transaction_id request)
                            (Request.unit_id request) response]
      | Raise ex =>
          if isinstance_Exception ex
          then match PyExc_str ex with
               | Return _ =>
                   [Response.set_ids (Request.transaction_id request)
                                     (Request.unit_id request)
                                     (Request.doException request merror.SlaveFailure)]
               | Raise _ => []
               end
          else []
      end.
Proof.
  split; [|split].
  - intros response w1 E. split.
    + unfold execute, bind. by rewrite E.
    + pose proof (execute_response_ids self request w) as H.
      by rewrite E in H.
  - destruct (execute_trace env self request w) as (evs & E & Hm).
    rewrite (new_events_app _ _ _ E).
    destruct Hm as [->|[response ->]]; [constructor|].
    repeat constructor.
  - intros fac f c d buf Hc.
    apply (execute_messages env self request w _ _ _ _ _ Hc).
Qed.

Lemma execute_copies_ids_witness :
  (* the success path: unit 1 has the two registers *)
  (execute (demo_env demo_read) 5%nat (demo_read 5 1) (demo_connected []) =
     send (demo_env demo_read) 5%nat (Response.mk 5 1 3 (Response.Normal [10; 20]))
          (demo_connected []) ∧
   ids_match (demo_read 5 1) (Response.mk 5 1 3 (Response.Normal [10; 20]))) ∧
  messages (new_events (execute (demo_env demo_read) 5%nat (demo_read 5 1))
                       (demo_connected [])) =
    [Response.mk 5 1 3 (Response.Normal [10; 20])] ∧
  (* the error path: unit 2 has no entry *)
  messages (new_events (execute (demo_env demo_read) 5%nat (demo_read 5 2))
                       (demo_connected [])) =
    [Response.mk 5 2 131 (Response.Exception merror.SlaveFailure)].
Proof.
  assert (Hc : connected (heap (demo_connected [])) 5%nat 4%nat 6%nat
                         ModbusSocketFramer 2%nat [])
    by (split; reflexivity).
  split; [|split].
  - exact (proj1 (execute_copies_ids (demo_env demo_read) 5%nat (demo_read 5 1)
                    (demo_connected []))
             (Response.mk 5 1 3 (Response.Normal [10; 20])) (demo_connected [])
             eq_refl).
  - exact (proj2 (proj2 (execute_copies_ids (demo_env demo_read) 5%nat (demo_read 5 1)
                           (demo_connected []))) _ _ _ _ _ Hc).
  - exact (proj2 (proj2 (execute_copies_ids (demo_env demo_read) 5%nat (demo_read 5 2)
                           (demo_connected []))) _ _ _ _ _ Hc).
Defined.

Lemma execute_try_no_entry self request w fac fr :
  heap w !! self = Some (ModbusProtocol_obj fac fr) →
  no_entry (heap w) fac (Request.unit_id request) →
  execute_try self request w = (Raise KeyError, w).
Proof.
  intros Hp (slaves & (dec & cls & s & ctl & Hfac & Hs) & Hu).
  unfold execute_try, self_factory_store, self_factory, factory_store,
    store_getitem, deref, bind, ret, raise.
  simpl. rewrite Hp. simpl. rewrite Hfac. simpl. rewrite Hs. simpl.
  by rewrite Hu.
Qed.

Lemma execute_try_raises self request w fac fr ex :
  heap w !! self = Some (ModbusProtocol_obj fac fr) →
  execution_raises (heap w) fac request ex →
  (execute_try self request w).1 = Raise ex.
Proof.
  intros Hp (slaves & ctx & (dec & cls & s & ctl & Hfac & Hs) & Hu & Hex).
  unfold execute_try, self_factory_store, self_factory, factory_store,
    store_getitem, Request_execute, deref, bind, ret, raise.
  simpl. rewrite Hp. simpl. rewrite Hfac. simpl. rewrite Hs. simpl.
  rewrite Hu. simpl. rewrite Hs. rewrite Hu. done.
Qed.

(** What a caught failure leads to. *)
Lemma execute_response_caught self request w ex :
  (execute_try self request w).1 = Raise ex →
  loggable ex →
  (execute_response self request w).1 = Return (error_response request).
Proof.
  intros Hex [Hi [text Hstr]]. rewrite execute_response_eq.
  destruct (execute_try self request w) as [[r|ex'] w1]; simplify_eq/=.
  by rewrite Hi, Hstr.
Qed.

Lemma execute_caught env self request w fac f c d buf ex :
  connected (heap w) self fac f c d buf →
  (execute_try self request w).1 = Raise ex →
  loggable ex →
  execute env self request w =
    (Return tt,
     {| heap := heap (execute_try self request w).2;
        trace := trace w ++
          Log_debug (Msg_Unable ex) ::
          sent_events env self f c (error_response request) |}).
Proof.
  intros Hc Hex [Hi [text Hstr]].
  rewrite (execute_connected env self request w _ _ _ _ _ Hc).
  destruct (execute_try self request w) as [[r|ex'] w1]; simplify_eq/=.
  by rewrite Hi, Hstr.
Qed.

Lemma execute_escapes env self request w ex :
  (execute_try self request w).1 = Raise ex →
  isinstance_Exception ex = false →
  execute env self request w = (Raise ex, (execute_try self request w).2).
Proof.
  intros Hex Hi. unfold execute, bind. rewrite execute_response_eq.
  destruct (execute_try self request w) as [[r|ex'] w1]; simplify_eq/=.
  by rewrite Hi.
Qed.

(** C2 (amended).  If the unit of the request has no entry in the datastore
    context of the handler's factory, or executing the request against its
    entry raises an instance of [Exception] that the log line of the handler
    can format, then the response [execute] produces is the request's
    [doException(merror.SlaveFailure)] with the transaction id and the unit
    id of the request, whatever the exception was; a handler that has its
    framer sends exactly that response and returns. *)
Theorem execute_failure_response env self request w fac fr :
  heap w !! self = Some (ModbusProtocol_obj fac fr) →
  no_entry (heap w) fac (Request.unit_id request) ∨
  (∃ ex, execution_raises (heap w) fac request ex ∧ loggable ex) →
  (execute_response self request w).1 =
    Return (Response.set_ids (Request.transaction_id request)
                             (Request.unit_id request)
                             (Request.doException request merror.SlaveFailure)) ∧
  ids_match request
    (Response.set_ids (Request.transaction_id request)
                      (Request.unit_id request)
                      (Request.doException request merror.SlaveFailure)) ∧
  ∀ f c d buf,
    connected (heap w) self fac f c d buf →
    (execute env self request w).1 = Return tt ∧
    messages (new_events (execute env self request) w) =
      [Response.set_ids (Request.transaction_id request)
                        (Request.unit_id request)
                        (Request.doException request merror.SlaveFailure)].
Proof.
  intros Hp Hfail.
  assert (∃ ex, (execute_try self request w).1 = Raise ex ∧ loggable ex)
    as (ex & Hex & Hi).
  { destruct Hfail as [Hno|(ex & Hr & Hi)].
    - exists KeyError. rewrite (execute_try_no_entry _ _ _ _ _ Hp Hno).
      split; [done|]. split; [done|]. by eexists.
    - exists ex. split; [|done]. by eapply execute_try_raises. }
  split; [by eapply execute_response_caught|]. split; [done|].
  intros f c d buf Hc.
  pose proof (execute_caught env _ _ _ _ _ _ _ _ _ Hc Hex Hi) as E.
  split; [by rewrite E|].
  erewrite new_events_app by (rewrite E; done). done.
Qed.

Lemma demo_factory_slaves buf :
  factory_slaves (heap (demo_connected buf)) 4%nat
                 {[ 1 := {[ 0 := 10; 1 := 20 ]}; 3 := ∅ ]}.
Proof. exists 2%nat, (PyFramerClass ModbusSocketFramer), 0%nat, 3%nat. done. Qed.

Lemma demo_is_connected buf :
  connected (heap (demo_connected buf)) 5%nat 4%nat 6%nat ModbusSocketFramer 2%nat buf.
Proof. done. Qed.

Lemma execute_failure_response_witness :
  (* unit 2 has no entry *)
  ((execute_response 5%nat (demo_read 5 2) (demo_connected [])).1 =
     Return (Response.mk 5 2 131 (Response.Exception merror.SlaveFailure)) ∧
   (execute (demo_env demo_read) 5%nat (demo_read 5 2) (demo_connected [])).1 = Return tt ∧
   messages (new_events (execute (demo_env demo_read) 5%nat (demo_read 5 2))
                        (demo_connected [])) =
     [Response.mk 5 2 131 (Response.Exception merror.SlaveFailure)]) ∧
  (* unit 3 has no registers: the read raises an illegal-address exception *)
  ((execute_response 5%nat (demo_read 7 3) (demo_connected [])).1 =
     Return (Response.mk 7 3 131 (Response.Exception merror.SlaveFailure)) ∧
   (execute (demo_env demo_read) 5%nat (demo_read 7 3) (demo_connected [])).1 = Return tt ∧
   messages (new_events (execute (demo_env demo_read) 5%nat (demo_read 7 3))
                        (demo_connected [])) =
     [Response.mk 7 3 131 (Response.Exception merror.SlaveFailure)]).
Proof.
  split.
  - destruct (execute_failure_response (demo_env demo_read) 5%nat (demo_read 5 2)
                (demo_connected []) 4%nat (Some 6%nat)) as (H1 & _ & H2).
    + reflexivity.
    + left. eexists. split; [apply demo_factory_slaves|]. reflexivity.
    + split; [exact H1|]. exact (H2 _ _ _ _ (demo_is_connected [])).
  - destruct (execute_failure_response (demo_env demo_read) 5%nat (demo_read 7 3)
                (demo_connected []) 4%nat (Some 6%nat)) as (H1 & _ & H2).
    + reflexivity.
    + right. exists (OtherException "IllegalAddress"). split.
      * exists {[ 1 := {[ 0 := 10; 1 := 20 ]}; 3 := ∅ ]}, ∅.
        split; [apply demo_factory_slaves|]. split; reflexivity.
      * split; [reflexivity|]. by eexists.
    + split; [exact H1|]. exact (H2 _ _ _ _ (demo_is_connected [])).
Defined.

(** C2, as stated, fails: the store has an entry for unit 1, executing the
    request against it raises [SystemExit], and no error response is
    produced. *)
Lemma execute_failure_response_counterexample :
  heap (demo_connected []) !! 5%nat = Some (ModbusProtocol_obj 4%nat (Some 6%nat)) ∧
  execution_raises (heap (demo_connected [])) 4%nat (demo_exit 5 1) SystemExit ∧
  (execute_response 5%nat (demo_exit 5 1) (demo_connected [])).1 = Raise SystemExit ∧
  (execute_response 5%nat (demo_exit 5 1) (demo_connected [])).1 ≠
    Return (Response.set_ids 5 1
              (Request.doException (demo_exit 5 1) merror.SlaveFailure)) ∧
  messages (new_events (execute (demo_env demo_exit) 5%nat (demo_exit 5 1))
                       (demo_connected [])) = [].
Proof.
  split; [reflexivity|]. split.
  - exists {[ 1 := {[ 0 := 10; 1 := 20 ]}; 3 := ∅ ]}, {[ 0 := 10; 1 := 20 ]}.
    split; [apply demo_factory_slaves|]. split; reflexivity.
  - split; [reflexivity|]. split; [discriminate|reflexivity].
Qed.

(** C3 (amended).  A failure of the datastore lookup or of the store
    execution that is an instance of [Exception] and that the log line of
    the handler can format never leaves [execute]: it is caught and turned
    into the error response, and a handler that has its framer serialises
    that response, writes it to the transport and returns.  A raisable that
    is not an instance of [Exception] propagates out of [execute] and
    nothing is written. *)
Theorem execute_catches_Exception env self request w ex :
  (execute_try self request w).1 = Raise ex →
  if isinstance_Exception ex
  then ∀ text,
         PyExc_str ex = Return text →
         (execute_response self request w).1 = Return (error_response request) ∧
         ∀ fac f c d buf,
           connected (heap w) self fac f c d buf →
           (execute env self request w).1 = Return tt ∧
           writes (new_events (execute env self request) w) =
             [(self, buildPacket env c (error_response request))]
  else (execute env self request w).1 = Raise ex ∧
       writes (new_events (execute env self request) w) = [].
Proof.
  intros Hex.
  destruct (isinstance_Exception ex) eqn:Hi.
  - intros text Hstr.
    assert (loggable ex) as Hlog by (split; [done|by exists text]).
    split; [by eapply execute_response_caught|].
    intros fac f c d buf Hc.
    pose proof (execute_caught env _ _ _ _ _ _ _ _ _ Hc Hex Hlog) as E.
    split; [by rewrite E|].
    erewrite new_events_app by (rewrite E; done). done.
  - pose proof (execute_escapes env _ _ _ _ Hex Hi) as E.
    destruct (execute_try_footprint self request w) as [Htr _].
    split; [by rewrite E|].
    erewrite (new_events_app _ _ []); [done|].
    rewrite E. simpl. by rewrite Htr, app_nil_r.
Qed.

Lemma execute_catches_Exception_witness :
  (execute_response 5%nat (demo_read 7 3) (demo_connected [])).1 =
    Return (error_response (demo_read 7 3)) ∧
  (execute (demo_env demo_read) 5%nat (demo_read 7 3) (demo_connected [])).1 = Return tt ∧
  writes (new_events (execute (demo_env demo_read) 5%nat (demo_read 7 3))
                     (demo_connected [])) =
    [(5%nat, [Byte.x00; Byte.x00])].
Proof.
  destruct (execute_catches_Exception (demo_env demo_read) 5%nat (demo_read 7 3)
              (demo_connected []) (OtherException "IllegalAddress") eq_refl
              "IllegalAddress"%string eq_refl)
    as [H1 H2].
  split; [exact H1|]. exact (H2 _ _ _ _ _ (demo_is_connected [])).
Defined.

(** C3, as stated, fails: the store execution raises [SystemExit], which
    leaves [execute]. *)
Lemma execute_catches_Exception_counterexample :
  connected (heap (demo_connected [])) 5%nat 4%nat 6%nat ModbusSocketFramer 2%nat [] ∧
  execution_raises (heap (demo_connected [])) 4%nat (demo_exit 5 1) SystemExit ∧
  (execute (demo_env demo_exit) 5%nat (demo_exit 5 1) (demo_connected [])).1 =
    Raise SystemExit ∧
  (execute (demo_env demo_exit) 5%nat (demo_exit 5 1) (demo_connected [])).1 ≠
    Return tt ∧
  writes (new_events (execute (demo_env demo_exit) 5%nat (demo_exit 5 1))
                     (demo_connected [])) = [].
Proof.
  split; [apply demo_is_connected|]. split.
  - exists {[ 1 := {[ 0 := 10; 1 := 20 ]}; 3 := ∅ ]}, {[ 0 := 10; 1 := 20 ]}.
    split; [apply demo_factory_slaves|]. split; reflexivity.
  - split; [reflexivity|]. split; [discriminate|reflexivity].
Qed.

(** ** [dataReceived] *)

Lemma execute_try_outcome self request w :
  match (execute_try self request w).1 with
  | Return r => ∃ ctx, (Request.execute request ctx).1 = Return r
  | Raise ex =>
      loggable ex ∨ ∃ ctx, (Request.execute request ctx).1 = Raise ex
  end.
Proof.
  unfold execute_try, self_factory_store, self_factory, factory_store,
    store_getitem, Request_execute, deref, bind, ret, raise.
  run_monad; simplify_eq/=; eauto.
  all: try (left; split; [done|by eexists]).
  all: match goal with
       | H : (Request.execute _ ?c).1 = _ |- _ => rewrite H; eauto
       | |- _ => idtac
       end.
Qed.

Lemma set_ids_match request r :
  ids_match request
    (Response.set_ids (Request.transaction_id request) (Request.unit_id request) r).
Proof. done. Qed.

(** One request, executed by a connected handler, when its execution raises
    nothing but instances of [Exception] that the log line can format. *)
Lemma execute_step env self request w fac f c d buf :
  connected (heap w) self fac f c d buf →
  raises_only_loggable request →
  ∃ w' m evs,
    execute env self request w = (Return tt, w') ∧
    rtc store_step (heap w) (heap w') ∧
    trace w' = trace w ++ evs ∧
    answers request m ∧
    messages evs = [m] ∧
    writes evs = [(self, buildPacket env c m)].
Proof.
  intros Hc Hreq.
  pose proof (execute_connected env self request w _ _ _ _ _ Hc) as E.
  destruct (execute_try_footprint self request w) as [_ Hst].
  pose proof (execute_try_outcome self request w) as Hout.
  destruct (execute_try self request w) as [[r|ex] w1]; simpl in *.
  - destruct Hout as [ctx Hctx].
    eexists _, _, _. split; [exact E|]. simpl.
    split; [done|]. split; [done|]. split; [|done].
    split; [apply set_ids_match|]. right. by exists ctx, r.
  - assert (loggable ex) as [Hi [text Hstr]].
    { destruct Hout as [|[ctx Hctx]]; [done|]. by eapply Hreq. }
    rewrite Hi, Hstr in E.
    eexists _, _, _. split; [exact E|]. simpl.
    split; [done|]. split; [done|]. split; [|done].
    split; [apply set_ids_match|]. by left.
Qed.

Lemma for_each_execute env self fac f c d reqs :
  Forall raises_only_loggable reqs →
  ∀ w buf,
    connected (heap w) self fac f c d buf →
    ∃ w' evs,
      for_each reqs (execute env self) w = (Return tt, w') ∧
      rtc store_step (heap w) (heap w') ∧
      trace w' = trace w ++ evs ∧
      Forall2 answers reqs (messages evs) ∧
      writes evs = map (λ m, (self, buildPacket env c m)) (messages evs).
Proof.
  induction 1 as [|request reqs Hreq _ IH]; intros w buf Hc.
  - exists w, []. simpl. rewrite app_nil_r. repeat split; done.
  - destruct (execute_step env self request w _ _ _ _ _ Hc Hreq)
      as (w1 & m & evs1 & E1 & Hst1 & Htr1 & Hans & Hm1 & Hw1).
    destruct (IH w1 buf (store_steps_connected _ _ _ _ _ _ _ _ Hst1 Hc))
      as (w2 & evs2 & E2 & Hst2 & Htr2 & Hall & Hw2).
    exists w2, (evs1 ++ evs2). simpl. unfold bind at 1. rewrite E1.
    split; [exact E2|]. split; [by etrans|].
    split; [by rewrite Htr2, Htr1, app_assoc|].
    rewrite messages_app, writes_app, Hm1, Hw1, Hw2. simpl.
    split; [by constructor|done].
Qed.

Lemma connected_distinct h self fac f c d buf :
  connected h self fac f c d buf → self ≠ f.
Proof. intros [Hp Hf] ->. rewrite Hp in Hf. discriminate. Qed.

Lemma dataReceived_connected env self data w fac f c d buf :
  connected (heap w) self fac f c d buf →
  Forall raises_only_loggable (decodeFrames env c (buf ++ data)).1 →
  ∃ w' evs,
    dataReceived env self data w = (Return tt, w') ∧
    connected (heap w') self fac f c d (decodeFrames env c (buf ++ data)).2 ∧
    trace w' = trace w ++ Log_debug (Msg_Data data) :: evs ∧
    Forall2 answers (decodeFrames env c (buf ++ data)).1 (messages evs) ∧
    writes evs = map (λ m, (self, buildPacket env c m)) (messages evs).
Proof.
  intros Hc Hreqs.
  pose proof (connected_distinct _ _ _ _ _ _ _ Hc) as Hne.
  destruct Hc as [Hp Hf].
  set (w1 := {| heap := <[f := Framer_obj c d (decodeFrames env c (buf ++ data)).2]> (heap w);
                trace := trace w ++ [Log_debug (Msg_Data data)] |}).
  assert (connected (heap w1) self fac f c d (decodeFrames env c (buf ++ data)).2) as Hc1.
  { split; simpl.
    - by rewrite list_lookup_insert_ne.
    - apply list_lookup_insert_eq. by eapply lookup_lt_Some. }
  destruct (for_each_execute env self fac f c d _ Hreqs w1 _ Hc1)
    as (w2 & evs & E & Hst & Htr & Hall & Hw).
  exists w2, evs.
  split.
  - unfold dataReceived, processIncomingPacket, self_framer, deref, bind, emit,
      ret, assign. simpl. rewrite Hp. simpl. rewrite Hf. simpl. exact E.
  - split; [by eapply store_steps_connected|].
    split; [|done]. rewrite Htr. simpl. by rewrite <- app_assoc.
Qed.

(** C4 (amended).  For a handler that has its framer and whose factory
    holds a datastore context: if the framer decodes the requests [reqs]
    from the buffered bytes and the chunk, and executing them raises nothing
    but instances of [Exception] that the log line of the handler can
    format, then [dataReceived]
    returns and sends exactly one response per request, in decoding order,
    each answering its request, and each is written to the transport. *)
Theorem dataReceived_responses env self data w fac f c d buf slaves :
  connected (heap w) self fac f c d buf →
  factory_slaves (heap w) fac slaves →
  Forall raises_only_loggable (decodeFrames env c (buf ++ data)).1 →
  (dataReceived env self data w).1 = Return tt ∧
  length (messages (new_events (dataReceived env self data) w)) =
    length (decodeFrames env c (buf ++ data)).1 ∧
  Forall2 answers (decodeFrames env c (buf ++ data)).1
                  (messages (new_events (dataReceived env self data) w)) ∧
  writes (new_events (dataReceived env self data) w) =
    map (λ m, (self, buildPacket env c m))
        (messages (new_events (dataReceived env self data) w)).
Proof.
  intros Hc _ Hreqs.
  destruct (dataReceived_connected env self data w _ _ _ _ _ Hc Hreqs)
    as (w' & evs & E & _ & Htr & Hall & Hw).
  erewrite new_events_app by (rewrite E; exact Htr).
  split; [by rewrite E|]. simpl.
  split; [symmetry; by eapply Forall2_length|]. done.
Qed.

Lemma demo_read_raises_only_loggable tid uid :
  raises_only_loggable (demo_read tid uid).
Proof.
  intros ctx ex. simpl.
  destruct (ctx !! 0), (ctx !! 1); intros [= <-].
  all: split; [done|by eexists].
Qed.

Lemma dataReceived_responses_witness :
  (dataReceived (demo_env demo_read) 5%nat [Byte.x01; Byte.x05; Byte.x02; Byte.x07]
                (demo_connected [Byte.x05])).1 = Return tt ∧
  length (messages (new_events
            (dataReceived (demo_env demo_read) 5%nat
                          [Byte.x01; Byte.x05; Byte.x02; Byte.x07])
            (demo_connected [Byte.x05]))) = 2%nat ∧
  Forall2 answers [demo_read 5 1; demo_read 5 2]
    (messages (new_events
       (dataReceived (demo_env demo_read) 5%nat
                     [Byte.x01; Byte.x05; Byte.x02; Byte.x07])
       (demo_connected [Byte.x05]))) ∧
  writes (new_events
            (dataReceived (demo_env demo_read) 5%nat
                          [Byte.x01; Byte.x05; Byte.x02; Byte.x07])
            (demo_connected [Byte.x05])) =
    map (λ m, (5%nat, buildPacket (demo_env demo_read) ModbusSocketFramer m))
        (messages (new_events
           (dataReceived (demo_env demo_read) 5%nat
                         [Byte.x01; Byte.x05; Byte.x02; Byte.x07])
           (demo_connected [Byte.x05]))).
Proof.
  apply (dataReceived_responses (demo_env demo_read) 5%nat
           [Byte.x01; Byte.x05; Byte.x02; Byte.x07] (demo_connected [Byte.x05])
           4%nat 6%nat ModbusSocketFramer 2%nat [Byte.x05]
           {[ 1 := {[ 0 := 10; 1 := 20 ]}; 3 := ∅ ]}).
  - apply demo_is_connected.
  - apply demo_factory_slaves.
  - simpl. constructor; [apply demo_read_raises_only_loggable|].
    constructor; [apply demo_read_raises_only_loggable|constructor].
Defined.

(** C4, as stated, fails: the framer decodes one request from the chunk, its
    execution raises [SystemExit], and no response is sent. *)
Lemma dataReceived_responses_counterexample :
  connected (heap (demo_connected [])) 5%nat 4%nat 6%nat ModbusSocketFramer 2%nat [] ∧
  (decodeFrames (demo_env demo_exit) ModbusSocketFramer ([] ++ [Byte.x05; Byte.x01])).1 =
    [demo_exit 5 1] ∧
  messages (new_events (dataReceived (demo_env demo_exit) 5%nat [Byte.x05; Byte.x01])
                       (demo_connected [])) = [] ∧
  length (messages (new_events
            (dataReceived (demo_env demo_exit) 5%nat [Byte.x05; Byte.x01])
            (demo_connected []))) ≠
    length (decodeFrames (demo_env demo_exit) ModbusSocketFramer
                         ([] ++ [Byte.x05; Byte.x01])).1.
Proof.
  split; [apply demo_is_connected|].
  split; [reflexivity|]. split; [reflexivity|]. simpl. discriminate.
Qed.

(** ** Framers are owned by one handler *)

Lemma framers_owned_transfer h h' :
  (∀ p fp f, h' !! p = Some (ModbusProtocol_obj fp (Some f)) →
             h !! p = Some (ModbusProtocol_obj fp (Some f))) →
  (∀ r c d b, h !! r = Some (Framer_obj c d b) →
              ∃ b', h' !! r = Some (Framer_obj c d b')) →
  framers_owned h → framers_owned h'.
Proof.
  intros Hproto Hframer [Hshare Hlive]. split.
  - intros p q fp fq f Hp Hq. eapply Hshare; eauto.
  - intros p fp f Hp.
    destruct (Hlive _ _ _ (Hproto _ _ _ Hp)) as (c & d & b & Hf).
    destruct (Hframer _ _ _ _ Hf) as [b' Hf']. eauto.
Qed.

Lemma cell_step_owned h h' : cell_step h h' → framers_owned h → framers_owned h'.
Proof.
  destruct 1 as [s o o' Hs Hmut|o Ho]; apply framers_owned_transfer.
  - intros p fp f Hp. destruct (decide (s = p)) as [->|Hne].
    + rewrite list_lookup_insert_eq in Hp by (by eapply lookup_lt_Some).
      simplify_eq. by destruct o.
    + by rewrite list_lookup_insert_ne in Hp.
  - intros r c d b Hr. destruct (decide (s = r)) as [->|Hne].
    + rewrite list_lookup_insert_eq by (by eapply lookup_lt_Some).
      rewrite Hs in Hr. simplify_eq. destruct o'; try done.
      destruct Hmut as [-> ->]. eauto.
    + rewrite list_lookup_insert_ne by done. eauto.
  - intros p fp f Hp. apply lookup_app_Some in Hp as [Hp|[Hlen Hp]]; [done|].
    apply list_lookup_singleton_Some in Hp as [_ ->]. done.
  - intros r c d b Hr. exists b. by apply lookup_app_l_Some.
Qed.

Lemma cell_steps_owned h h' :
  rtc cell_step h h' → framers_owned h → framers_owned h'.
Proof. induction 1; eauto using cell_step_owned. Qed.

Lemma store_step_cell h h' : store_step h h' → cell_step h h'.
Proof. destruct 1. by econstructor. Qed.

Lemma store_steps_cell h h' : rtc store_step h h' → rtc cell_step h h'.
Proof. induction 1; [done|]. eapply rtc_l; [by apply store_step_cell|done]. Qed.

Lemma send_heap env self message w : heap (send env self message w).2 = heap w.
Proof.
  unfold send, self_framer, Framer_buildPacket, deref, bind, ret, raise, emit.
  run_monad; by simplify_eq/=.
Qed.

Lemma execute_steps env self request w :
  rtc store_step (heap w) (heap (execute env self request w).2).
Proof.
  destruct (execute_try_footprint self request w) as [_ Hst].
  unfold execute, bind. rewrite execute_response_eq.
  destruct (execute_try self request w) as [[r|ex] w1]; simpl in *.
  - by rewrite send_heap.
  - destruct (isinstance_Exception ex); [|done].
    destruct (PyExc_str ex); [|done]. by rewrite send_heap.
Qed.

Lemma for_each_execute_steps env self reqs w :
  rtc store_step (heap w) (heap (for_each reqs (execute env self) w).2).
Proof.
  revert w. induction reqs as [|request reqs IH]; intros w; [done|].
  simpl. unfold bind.
  pose proof (execute_steps env self request w) as H1.
  destruct (execute env self request w) as [[[]|ex] w1]; simpl in *; [|done].
  etrans; [exact H1|apply IH].
Qed.

(** [dataReceived] either stops before it touches the heap, or replaces the
    buffer of the handler's own framer and then writes to the store only. *)
Lemma dataReceived_footprint env self data w :
  heap (dataReceived env self data w).2 = heap w ∨
  ∃ fac f c d b b',
    connected (heap w) self fac f c d b ∧
    rtc store_step (<[f := Framer_obj c d b']> (heap w))
                   (heap (dataReceived env self data w).2).
Proof.
  unfold dataReceived, processIncomingPacket, self_framer, deref, bind,
    emit, ret, raise, assign.
  simpl.
  destruct (heap w !! self) as [[| | | | |fac [f|]| |]|] eqn:Hp; simpl; auto.
  destruct (heap w !! f) as [[| | | |c d b| | |]|] eqn:Hf; simpl; auto.
  right. exists fac, f, c, d, b, (decodeFrames env c (b ++ data)).2.
  split; [done|].
  match goal with |- context [for_each ?l ?k ?w'] =>
    apply (for_each_execute_steps env self l w') end.
Qed.

Lemma dataReceived_steps env self data w :
  rtc cell_step (heap w) (heap (dataReceived env self data w).2).
Proof.
  destruct (dataReceived_footprint env self data w)
    as [->|(fac & f & c & d & b & b' & [_ Hf] & Hst)]; [done|].
  eapply rtc_l; [|by apply store_steps_cell].
  by eapply cell_update.
Qed.

Lemma Identity_update_steps control identity w :
  rtc cell_step (heap w) (heap (Identity_update control identity w).2).
Proof.
  unfold Identity_update, deref, bind, emit, ret, raise, assign.
  run_monad; simplify_eq/=; try done.
  apply rtc_once. by eapply cell_update.
Qed.

Lemma bind_steps {A B} (c : M A) (k : A → M B) w :
  rtc cell_step (heap w) (heap (c w).2) →
  (∀ a w', rtc cell_step (heap w') (heap (k a w').2)) →
  rtc cell_step (heap w) (heap (bind c k w).2).
Proof.
  intros Hc Hk. unfold bind.
  destruct (c w) as [[a|ex] w1]; simpl in *; [|done].
  etrans; [exact Hc|apply Hk].
Qed.

Lemma alloc_steps o w :
  has_framer o = false → rtc cell_step (heap w) (heap (alloc o w).2).
Proof. intros Ho. apply rtc_once. by constructor. Qed.

Lemma py_or_steps env x (y : M PyVal) w :
  (∀ w', rtc cell_step (heap w') (heap (y w').2)) →
  rtc cell_step (heap w) (heap (py_or env x y w).2).
Proof. intros Hy. unfold py_or. destruct (truthy env (heap w) x); [done|apply Hy]. Qed.

Lemma ModbusServerFactory_steps env store framer identity w :
  rtc cell_step (heap w)
      (heap (ModbusServerFactory env store framer identity w).2).
Proof.
  unfold ModbusServerFactory.
  apply bind_steps; [by apply alloc_steps|]. intros decoder w1.
  apply bind_steps; [by apply py_or_steps|]. intros framer' w2.
  apply bind_steps.
  { apply py_or_steps. intros w'. unfold ModbusServerContext_new.
    apply bind_steps; [by apply alloc_steps|done]. }
  intros store' w3.
  apply bind_steps; [by apply alloc_steps|]. intros control w4.
  apply bind_steps; [by apply alloc_steps|]. intros self w5.
  apply bind_steps; [|done].
  destruct (isinstance_ModbusDeviceIdentification (heap w5) identity);
    [apply Identity_update_steps|done].
Qed.

(** ** [connectionMade] *)

Lemma connectionMade_allocates w self fac fr dec c st ctl :
  heap w !! self = Some (ModbusProtocol_obj fac fr) →
  heap w !! fac = Some (ModbusServerFactory_obj dec (PyFramerClass c) st ctl) →
  connectionMade self w =
    (Return tt,
     {| heap := <[self := ModbusProtocol_obj fac (Some (length (heap w)))]>
                  (heap w ++ [Framer_obj c dec []]);
        trace := trace w ++ [Log_debug (Msg_ClientConnected self)] |}).
Proof.
  intros Hp Hfac.
  unfold connectionMade, self_factory, factory_framer, factory_decoder,
    Framer_call, deref, bind, emit, ret, raise, assign, alloc.
  simpl. rewrite Hp. simpl. rewrite Hfac. simpl. rewrite Hp. simpl.
  rewrite Hfac. done.
Qed.

Lemma connectionMade_footprint w self :
  heap (connectionMade self w).2 = heap w ∨
  ∃ fac fr c dec,
    heap w !! self = Some (ModbusProtocol_obj fac fr) ∧
    heap (connectionMade self w).2 =
      <[self := ModbusProtocol_obj fac (Some (length (heap w)))]>
        (heap w ++ [Framer_obj c dec []]).
Proof.
  unfold connectionMade, self_factory, factory_framer, factory_decoder,
    Framer_call, deref, bind, emit, ret, raise, assign, alloc.
  simpl.
  destruct (heap w !! self) as [[| | | | |fac fr| |]|] eqn:Hp; simpl; auto.
  destruct (heap w !! fac) as [[| | | | | |dec [| | |c|] st ctl|]|] eqn:Hfac;
    simpl; auto.
  all: rewrite ?Hp; simpl; rewrite ?Hfac; simpl; auto.
  right. by exists fac, fr, c, dec.
Qed.

Lemma bind_framer_owned h self fac fr c dec :
  h !! self = Some (ModbusProtocol_obj fac fr) →
  framers_owned h →
  framers_owned (<[self := ModbusProtocol_obj fac (Some (length h))]>
                   (h ++ [Framer_obj c dec []])).
Proof.
  intros Hself [Hshare Hlive].
  pose proof (lookup_lt_Some _ _ _ Hself) as Hlt.
  assert (∀ p fp f,
            p ≠ self →
            (<[self := ModbusProtocol_obj fac (Some (length h))]>
               (h ++ [Framer_obj c dec []])) !! p
              = Some (ModbusProtocol_obj fp (Some f)) →
            h !! p = Some (ModbusProtocol_obj fp (Some f)) ∧ f ≠ length h) as Hold.
  { intros p fp f Hne Hp. rewrite list_lookup_insert_ne in Hp by done.
    apply lookup_app_Some in Hp as [Hp|[_ Hp]].
    - split; [done|]. intros ->.
      destruct (Hlive _ _ _ Hp) as (c' & d' & b' & Hf).
      apply lookup_lt_Some in Hf. lia.
    - by apply list_lookup_singleton_Some in Hp as [_ ?]. }
  assert (∀ fp f,
            (<[self := ModbusProtocol_obj fac (Some (length h))]>
               (h ++ [Framer_obj c dec []])) !! self
              = Some (ModbusProtocol_obj fp (Some f)) →
            f = length h) as Hnew.
  { intros fp f Hp.
    rewrite list_lookup_insert_eq in Hp by (rewrite length_app; lia).
    by simplify_eq. }
  split.
  - intros p q fp fq f Hp Hq.
    destruct (decide (p = self)) as [->|Hps], (decide (q = self)) as [->|Hqs];
      [done| | |].
    + apply Hnew in Hp as ->. by destruct (Hold _ _ _ Hqs Hq).
    + apply Hnew in Hq as ->. by destruct (Hold _ _ _ Hps Hp).
    + destruct (Hold _ _ _ Hps Hp), (Hold _ _ _ Hqs Hq). by eapply Hshare.
  - intros p fp f Hp. destruct (decide (p = self)) as [->|Hps].
    + apply Hnew in Hp as ->. exists c, dec, [].
      rewrite list_lookup_insert_ne by lia.
      by rewrite lookup_app_r, Nat.sub_diag by lia.
    + destruct (Hold _ _ _ Hps Hp) as [Hp' _].
      destruct (Hlive _ _ _ Hp') as (c' & d' & b' & Hf).
      exists c', d', b'.
      assert (self ≠ f) by congruence.
      rewrite list_lookup_insert_ne by done.
      by apply lookup_app_l_Some.
Qed.

Lemma run_owned env c w :
  framers_owned (heap w) → framers_owned (heap (run env c w).2).
Proof.
  intros Hown. destruct c as [store framer identity|factory|self|self data|self reason];
    cbn [run].
  - eapply cell_steps_owned; [|done].
    apply bind_steps; [apply ModbusServerFactory_steps|done].
  - eapply cell_steps_owned; [|done].
    apply bind_steps; [by apply alloc_steps|done].
  - destruct (connectionMade_footprint w self)
      as [->|(fac & fr & c & dec & Hp & ->)]; [done|].
    by eapply bind_framer_owned.
  - eapply cell_steps_owned; [apply dataReceived_steps|done].
  - done.
Qed.

Lemma initial_owned w : initial w → framers_owned (heap w).
Proof.
  intros Hinit. split.
  - intros p q fp fq f Hp _. by destruct (Hinit p fp (Some f)).
  - intros p fp f Hp. by destruct (Hinit p fp (Some f)).
Qed.

Lemma reachable_owned env w : reachable env w → framers_owned (heap w).
Proof.
  induction 1 as [w Hinit|w c _ IH]; [by apply initial_owned|by apply run_owned].
Qed.

Lemma reachable_run_all env calls w :
  reachable env w → reachable env (run_all env calls w).
Proof.
  revert w. induction calls as [|c calls IH]; intros w Hw; [done|].
  simpl. apply IH. by constructor.
Qed.

Lemma dataReceived_other_handler env w p q fac f c d buf data :
  framers_owned (heap w) →
  p ≠ q →
  connected (heap w) q fac f c d buf →
  connected (heap (dataReceived env p data w).2) q fac f c d buf.
Proof.
  intros [Hshare _] Hne Hq.
  destruct (dataReceived_footprint env p data w)
    as [->|(fac' & f' & c' & d' & b & b' & [Hp Hf'] & Hst)]; [done|].
  eapply store_steps_connected; [exact Hst|].
  destruct Hq as [Hq Hf]. split.
  - rewrite list_lookup_insert_ne; [done|]. congruence.
  - rewrite list_lookup_insert_ne; [done|].
    intros ->. apply Hne. by eapply Hshare.
Qed.

(** C5.  [connectionMade] gives the handler a framer instance that did not
    exist before, of the factory's framer class, bound to the factory's
    decoder and with nothing buffered; it touches no other object and sends
    nothing.  In every world the server reaches no framer belongs to two
    handlers, and data received by one handler leaves every other handler's
    framer and its buffer as they were. *)
Theorem connectionMade_own_framer env :
  (∀ w self fac fr dec c st ctl,
     heap w !! self = Some (ModbusProtocol_obj fac fr) →
     heap w !! fac = Some (ModbusServerFactory_obj dec (PyFramerClass c) st ctl) →
     (connectionMade self w).1 = Return tt ∧
     heap w !! length (heap w) = None ∧
     connected (heap (connectionMade self w).2) self fac (length (heap w)) c dec [] ∧
     (∀ r o, r ≠ self → heap w !! r = Some o →
             heap (connectionMade self w).2 !! r = Some o) ∧
     new_events (connectionMade self) w = [Log_debug (Msg_ClientConnected self)]) ∧
  (∀ w, reachable env w → no_sharing (heap w)) ∧
  (∀ w p q fac f c d buf data,
     reachable env w →
     p ≠ q →
     connected (heap w) q fac f c d buf →
     connected (heap (dataReceived env p data w).2) q fac f c d buf).
Proof.
  split; [|split].
  - intros w self fac fr dec c st ctl Hp Hfac.
    rewrite (connectionMade_allocates _ _ _ _ _ _ _ _ Hp Hfac). simpl.
    pose proof (lookup_lt_Some _ _ _ Hp) as Hlt.
    split; [done|]. split; [by apply lookup_ge_None|].
    split; [split|split].
    + apply list_lookup_insert_eq. rewrite length_app. lia.
    + rewrite list_lookup_insert_ne by lia.
      by rewrite lookup_app_r, Nat.sub_diag by lia.
    + intros r o Hne Hr. rewrite list_lookup_insert_ne by done.
      by apply lookup_app_l_Some.
    + apply new_events_app.
      by rewrite (connectionMade_allocates _ _ _ _ _ _ _ _ Hp Hfac).
  - intros w Hw. by destruct (reachable_owned env w Hw).
  - intros w p q fac f c d buf data Hw.
    apply dataReceived_other_handler. by eapply reachable_owned.
Qed.

Lemma demo_start_initial : initial demo_start.
Proof. intros [|[|r]] fac f; discriminate. Qed.

Lemma connectionMade_own_framer_witness :
  ((connectionMade 7%nat (buildProtocol 4%nat (demo_connected [Byte.x05])).2).1
     = Return tt ∧
   heap (buildProtocol 4%nat (demo_connected [Byte.x05])).2 !! 8%nat = None ∧
   connected
     (heap (connectionMade 7%nat (buildProtocol 4%nat (demo_connected [Byte.x05])).2).2)
     7%nat 4%nat 8%nat ModbusSocketFramer 2%nat []) ∧
  no_sharing (heap (run_all (demo_env demo_read) demo_calls demo_start)) ∧
  connected
    (heap (dataReceived (demo_env demo_read) 5%nat [Byte.x01]
             (run_all (demo_env demo_read) demo_calls demo_start)).2)
    7%nat 4%nat 8%nat ModbusSocketFramer 2%nat [].
Proof.
  pose proof (connectionMade_own_framer (demo_env demo_read)) as (Ha & Hb & Hc).
  assert (reachable (demo_env demo_read)
            (run_all (demo_env demo_read) demo_calls demo_start)) as Hreach.
  { apply reachable_run_all, reachable_initial, demo_start_initial. }
  split; [|split].
  - destruct (Ha (buildProtocol 4%nat (demo_connected [Byte.x05])).2 7%nat 4%nat None
                 2%nat ModbusSocketFramer (PyRef 0%nat) 3%nat eq_refl eq_refl)
      as (H1 & H2 & H3 & _).
    exact (conj H1 (conj H2 H3)).
  - exact (Hb _ Hreach).
  - apply (Hc _ 5%nat 7%nat 4%nat 8%nat ModbusSocketFramer 2%nat [] [Byte.x01] Hreach).
    + discriminate.
    + split; reflexivity.
Defined.

(** ** [connectionLost] *)

(** C6 (amended).  [connectionLost] only logs the disconnect: the heap, and
    with it the handler's framer and the bytes the framer has buffered, is
    left as it was, and nothing is sent.  A connection made afterwards, on
    the same handler or on another one, gets a framer instance that did not
    exist before and has nothing buffered. *)
Theorem connectionLost_only_logs self reason w :
  connectionLost self reason w =
    (Return tt, {| heap := heap w;
                   trace := trace w ++ [Log_debug Msg_ClientDisconnected] |}) ∧
  ∀ self' fac fr dec c st ctl,
    heap w !! self' = Some (ModbusProtocol_obj fac fr) →
    heap w !! fac = Some (ModbusServerFactory_obj dec (PyFramerClass c) st ctl) →
    heap w !! length (heap w) = None ∧
    connected (heap (connectionMade self' (connectionLost self reason w).2).2)
              self' fac (length (heap w)) c dec [].
Proof.
  split; [done|].
  intros self' fac fr dec c st ctl Hp Hfac.
  pose proof (lookup_lt_Some _ _ _ Hp) as Hlt.
  split; [by apply lookup_ge_None|].
  unfold connectionLost, emit. simpl.
  erewrite connectionMade_allocates by (simpl; done). simpl. split.
  - apply list_lookup_insert_eq. rewrite length_app. lia.
  - rewrite list_lookup_insert_ne by lia.
    by rewrite lookup_app_r, Nat.sub_diag by lia.
Qed.

Lemma connectionLost_only_logs_witness :
  heap (demo_connected [Byte.x05]) !! 7%nat = None ∧
  connected
    (heap (connectionMade 5%nat
             (connectionLost 5%nat PyNone (demo_connected [Byte.x05])).2).2)
    5%nat 4%nat 7%nat ModbusSocketFramer 2%nat [].
Proof.
  exact (proj2 (connectionLost_only_logs 5%nat PyNone (demo_connected [Byte.x05]))
           5%nat 4%nat (Some 6%nat) 2%nat ModbusSocketFramer (PyRef 0%nat) 3%nat
           eq_refl eq_refl).
Defined.

(** C6, as stated, fails: a handler whose framer has buffered the first byte
    of a frame still has that framer and that byte after [connectionLost],
    and data received afterwards completes the frame and is answered. *)
Lemma connectionLost_only_logs_counterexample :
  connected (heap (connectionLost 5%nat PyNone (demo_connected [Byte.x05])).2)
            5%nat 4%nat 6%nat ModbusSocketFramer 2%nat [Byte.x05] ∧
  heap (connectionLost 5%nat PyNone (demo_connected [Byte.x05])).2 !! 5%nat
    ≠ Some (ModbusProtocol_obj 4%nat None) ∧
  messages (new_events (dataReceived (demo_env demo_read) 5%nat [Byte.x01])
                       (connectionLost 5%nat PyNone (demo_connected [Byte.x05])).2)
    = [Response.mk 5 1 3 (Response.Normal [10; 20])].
Proof.
  split; [done|]. split; [discriminate|reflexivity].
Qed.

(** ** [ModbusServerFactory] *)

Lemma truthy_snoc_decoder env h v :
  truthy env (h ++ [ServerDecoder_obj]) v = truthy env h v.
Proof.
  destruct v as [| | | |r]; try done. simpl.
  destruct (decide (r < length h)%nat).
  - by rewrite lookup_app_l.
  - rewrite lookup_app_r, (lookup_ge_None_2 h r) by lia.
    by destruct (r - length h)%nat.
Qed.

Lemma isinstance_snoc h o v :
  (∀ info, o ≠ ModbusDeviceIdentification_obj info) →
  isinstance_ModbusDeviceIdentification (h ++ [o]) v =
  isinstance_ModbusDeviceIdentification h v.
Proof.
  intros Ho. destruct v as [| | | |r]; try done. simpl.
  destruct (decide (r < length h)%nat).
  - by rewrite lookup_app_l.
  - rewrite lookup_app_r, (lookup_ge_None_2 h r) by lia.
    destruct (r - length h)%nat; simpl; [|done].
    destruct o; try done. by destruct (Ho info).
Qed.

Lemma isinstance_inv h v :
  isinstance_ModbusDeviceIdentification h v = true →
  ∃ r, v = PyRef r ∧
       h !! r = Some (ModbusDeviceIdentification_obj (identity_info h v)).
Proof.
  destruct v as [| | | |r]; try done. simpl.
  destruct (h !! r) as [[]|] eqn:Hr; try done. eauto.
Qed.

(** What building a factory does, in full. *)
Lemma ModbusServerFactory_spec env store framer identity w :
  ModbusServerFactory env store framer identity w =
    (Return (length (heap w) + (if truthy env (heap w) store then 2 else 3))%nat,
     {| heap :=
          heap w ++ [ServerDecoder_obj] ++
          (if truthy env (heap w) store then [] else [ModbusServerContext_obj ∅]) ++
          [ModbusControlBlock_obj
             (if isinstance_ModbusDeviceIdentification (heap w) identity
              then identity_info (heap w) identity ∪ ∅ else ∅);
           ModbusServerFactory_obj
             (length (heap w))
             (if truthy env (heap w) framer then framer
              else PyFramerClass ModbusSocketFramer)
             (if truthy env (heap w) store then store
              else PyRef (length (heap w) + 1)%nat)
             (length (heap w) + (if truthy env (heap w) store then 1 else 2))%nat];
        trace :=
          trace w ++
          (if isinstance_ModbusDeviceIdentification (heap w) identity
           then [Call_Identity_update
                   (length (heap w) + (if truthy env (heap w) store then 1 else 2))%nat
                   identity]
           else []) |}).
Proof.
  unfold ModbusServerFactory, ModbusServerContext_new, ModbusControlBlock_new,
    py_or, bind, alloc, ret.
  simpl. rewrite !truthy_snoc_decoder.
  destruct (truthy env (heap w) framer); simpl.
  all: rewrite !truthy_snoc_decoder.
  all: destruct (truthy env (heap w) store); simpl.
  all: rewrite !isinstance_snoc by done.
  all: match goal with
       | |- context [isinstance_ModbusDeviceIdentification ?h ?i] =>
           destruct (isinstance_ModbusDeviceIdentification h i) eqn:Hi
       end.
  all: rewrite ?length_app; simpl; rewrite <- ?app_assoc; simpl.
  all: rewrite <- ?Nat.add_assoc; simpl.
  all: try (by rewrite app_nil_r).
  all: apply isinstance_inv in Hi as (r & -> & Hr).
  all: unfold Identity_update, deref, bind, emit, assign, ret, raise; simpl.
  all: pose proof (lookup_lt_Some _ _ _ Hr) as Hlt.
  all: rewrite (lookup_app_r (heap w)) by lia.
  all: rewrite Nat.add_sub'; simpl.
  all: rewrite (lookup_app_l_Some _ _ _ _ Hr).
  all: cbn [heap trace].
  all: rewrite insert_app_r_alt by lia.
  all: by rewrite Nat.add_sub'.
Qed.

Lemma lookup_app_offset (h l : list Obj) k :
  (h ++ l) !! (length h + k)%nat = l !! k.
Proof. by rewrite lookup_app_r, Nat.add_sub' by lia. Qed.

(** The cells a new factory consists of. *)
Lemma ModbusServerFactory_cells env store framer identity w :
  ∃ fac ctl,
    (ModbusServerFactory env store framer identity w).1 = Return fac ∧
    (length (heap w) < ctl)%nat ∧
    heap (ModbusServerFactory env store framer identity w).2 !! fac =
      Some (ModbusServerFactory_obj
              (length (heap w))
              (if truthy env (heap w) framer then framer
               else PyFramerClass ModbusSocketFramer)
              (if truthy env (heap w) store then store
               else PyRef (length (heap w) + 1)%nat)
              ctl) ∧
    heap (ModbusServerFactory env store framer identity w).2 !! ctl =
      Some (ModbusControlBlock_obj
              (if isinstance_ModbusDeviceIdentification (heap w) identity
               then identity_info (heap w) identity ∪ ∅ else ∅)) ∧
    heap (ModbusServerFactory env store framer identity w).2 !! length (heap w) =
      Some ServerDecoder_obj ∧
    (if truthy env (heap w) store
     then ∀ r slaves,
            heap (ModbusServerFactory env store framer identity w).2 !! r =
              Some (ModbusServerContext_obj slaves) →
            heap w !! r = Some (ModbusServerContext_obj slaves)
     else heap (ModbusServerFactory env store framer identity w).2
            !! (length (heap w) + 1)%nat = Some (ModbusServerContext_obj ∅)) ∧
    (∀ r o, heap w !! r = Some o →
            heap (ModbusServerFactory env store framer identity w).2 !! r = Some o) ∧
    trace (ModbusServerFactory env store framer identity w).2 =
      trace w ++
      (if isinstance_ModbusDeviceIdentification (heap w) identity
       then [Call_Identity_update ctl identity] else []).
Proof.
  rewrite ModbusServerFactory_spec. simpl.
  destruct (truthy env (heap w) store) eqn:Hst; simpl.
  - exists (length (heap w) + 2)%nat, (length (heap w) + 1)%nat.
    split; [done|]. split; [lia|].
    rewrite !lookup_app_offset. simpl.
    split; [done|]. split; [done|].
    split; [by rewrite <- (Nat.add_0_r (length (heap w))), lookup_app_offset|].
    split; [|split; [|done]].
    + intros r slaves Hr. apply lookup_app_Some in Hr as [Hr|[_ Hr]]; [done|].
      destruct (r - length (heap w))%nat as [|[|[|k]]]; simplify_eq/=.
    + intros r o Hr. by apply lookup_app_l_Some.
  - exists (length (heap w) + 3)%nat, (length (heap w) + 2)%nat.
    split; [done|]. split; [lia|].
    rewrite !lookup_app_offset. simpl.
    split; [done|]. split; [done|].
    split; [by rewrite <- (Nat.add_0_r (length (heap w))), lookup_app_offset|].
    split; [done|]. split; [|done].
    intros r o Hr. by apply lookup_app_l_Some.
Qed.

Lemma falsy_ref_live env h r : truthy env h (PyRef r) = false → (r < length h)%nat.
Proof.
  simpl. destruct (h !! r) eqn:Hr; [|done].
  intros _. by eapply lookup_lt_Some.
Qed.

(** Every handler of a factory reads the factory's store. *)
Lemma handler_store w fac dec fr st ctl :
  heap w !! fac = Some (ModbusServerFactory_obj dec fr st ctl) →
  (self_factory_store (length (heap w)) (buildProtocol fac w).2).1 = Return st.
Proof.
  intros Hfac.
  unfold self_factory_store, self_factory, factory_store, buildProtocol, alloc,
    deref, bind, ret, raise.
  simpl. rewrite lookup_app_r, Nat.sub_diag by lia. simpl.
  by rewrite (lookup_app_l_Some _ _ _ _ Hfac).
Qed.

(** C7.  A factory built without a framer uses [ModbusSocketFramer]; built
    without a store it uses a datastore context that did not exist before
    and is empty; a store that is kept is kept as the reference that was
    passed in: no datastore context is created, and every handler the
    factory builds reads that same reference. *)
Theorem ModbusServerFactory_defaults env identity w :
  (∀ store, ∃ fac dec st ctl,
     (ModbusServerFactory env store PyNone identity w).1 = Return fac ∧
     heap (ModbusServerFactory env store PyNone identity w).2 !! fac =
       Some (ModbusServerFactory_obj dec (PyFramerClass ModbusSocketFramer) st ctl)) ∧
  (∀ framer, ∃ fac dec fr s ctl,
     (ModbusServerFactory env PyNone framer identity w).1 = Return fac ∧
     heap (ModbusServerFactory env PyNone framer identity w).2 !! fac =
       Some (ModbusServerFactory_obj dec fr (PyRef s) ctl) ∧
     heap w !! s = None ∧
     heap (ModbusServerFactory env PyNone framer identity w).2 !! s =
       Some (ModbusServerContext_obj ∅)) ∧
  (∀ store framer,
     truthy env (heap w) store = true →
     ∃ fac dec fr ctl,
       (ModbusServerFactory env store framer identity w).1 = Return fac ∧
       heap (ModbusServerFactory env store framer identity w).2 !! fac =
         Some (ModbusServerFactory_obj dec fr store ctl) ∧
       (∀ r slaves,
          heap (ModbusServerFactory env store framer identity w).2 !! r =
            Some (ModbusServerContext_obj slaves) →
          heap w !! r = Some (ModbusServerContext_obj slaves)) ∧
       (∀ w2,
          heap w2 !! fac = Some (ModbusServerFactory_obj dec fr store ctl) →
          (self_factory_store (length (heap w2)) (buildProtocol fac w2).2).1 =
            Return store)).
Proof.
  split; [|split].
  - intros store.
    destruct (ModbusServerFactory_cells env store PyNone identity w)
      as (fac & ctl & Hret & _ & Hfac & _).
    by eexists fac, _, _, ctl.
  - intros framer.
    destruct (ModbusServerFactory_cells env PyNone framer identity w)
      as (fac & ctl & Hret & _ & Hfac & _ & _ & Hctx & _).
    simpl in Hfac, Hctx.
    eexists fac, _, _, _, ctl. split; [done|]. split; [exact Hfac|].
    split; [|done]. apply lookup_ge_None. lia.
  - intros store framer Htrue.
    destruct (ModbusServerFactory_cells env store framer identity w)
      as (fac & ctl & Hret & _ & Hfac & _ & _ & Hctx & _).
    rewrite Htrue in Hfac, Hctx.
    eexists fac, _, _, ctl. split; [done|]. split; [exact Hfac|].
    split; [done|]. intros w2 Hw2. by eapply handler_store.
Qed.

Lemma ModbusServerFactory_defaults_witness :
  ∃ fac dec fr ctl,
    (ModbusServerFactory (demo_env demo_read) (PyRef 0%nat)
                         (PyFramerClass ModbusAsciiFramer) PyNone demo_start).1
      = Return fac ∧
    heap (ModbusServerFactory (demo_env demo_read) (PyRef 0%nat)
                              (PyFramerClass ModbusAsciiFramer) PyNone demo_start).2
      !! fac = Some (ModbusServerFactory_obj dec fr (PyRef 0%nat) ctl) ∧
    (∀ r slaves,
       heap (ModbusServerFactory (demo_env demo_read) (PyRef 0%nat)
                                 (PyFramerClass ModbusAsciiFramer) PyNone demo_start).2
         !! r = Some (ModbusServerContext_obj slaves) →
       heap demo_start !! r = Some (ModbusServerContext_obj slaves)) ∧
    (∀ w2,
       heap w2 !! fac = Some (ModbusServerFactory_obj dec fr (PyRef 0%nat) ctl) →
       (self_factory_store (length (heap w2)) (buildProtocol fac w2).2).1 =
         Return (PyRef 0%nat)).
Proof.
  apply (proj2 (proj2 (ModbusServerFactory_defaults (demo_env demo_read) PyNone
                         demo_start))
           (PyRef 0%nat) (PyFramerClass ModbusAsciiFramer)).
  reflexivity.
Defined.

(** C8.  The identity override is applied to the control block exactly when
    the [identity] argument is an instance of [ModbusDeviceIdentification]:
    then [Identity.update] is called once, with that argument, and the
    control block holds its entries; otherwise, and in particular for
    [None], [Identity.update] is not called and the control block keeps the
    default, empty identity. *)
Theorem ModbusServerFactory_identity env store framer identity w :
  isinstance_ModbusDeviceIdentification (heap w) PyNone = false ∧
  ∃ fac dec fr st ctl,
    (ModbusServerFactory env store framer identity w).1 = Return fac ∧
    heap (ModbusServerFactory env store framer identity w).2 !! fac =
      Some (ModbusServerFactory_obj dec fr st ctl) ∧
    heap w !! ctl = None ∧
    heap (ModbusServerFactory env store framer identity w).2 !! ctl =
      Some (ModbusControlBlock_obj
              (if isinstance_ModbusDeviceIdentification (heap w) identity
               then identity_info (heap w) identity else ∅)) ∧
    identity_updates (new_events (ModbusServerFactory env store framer identity) w) =
      (if isinstance_ModbusDeviceIdentification (heap w) identity
       then [(ctl, identity)] else []).
Proof.
  split; [done|].
  destruct (ModbusServerFactory_cells env store framer identity w)
    as (fac & ctl & Hret & Hlt & Hfac & Hctl & _ & _ & _ & Htr).
  eexists fac, _, _, _, ctl. split; [done|]. split; [exact Hfac|].
  split; [apply lookup_ge_None; lia|].
  rewrite (new_events_app _ _ _ Htr), Hctl.
  destruct (isinstance_ModbusDeviceIdentification (heap w) identity); [|done].
  by rewrite (right_id_L ∅ (∪)).
Qed.

(** C10.  A store argument that Python's truth test finds false, whether it
    is [None] or a datastore context object, is not the factory's store: the
    factory's store is a datastore context that did not exist before and is
    empty. *)
Theorem ModbusServerFactory_falsy_store env store framer identity w :
  truthy env (heap w) store = false →
  ∃ fac dec fr s ctl,
    (ModbusServerFactory env store framer identity w).1 = Return fac ∧
    heap (ModbusServerFactory env store framer identity w).2 !! fac =
      Some (ModbusServerFactory_obj dec fr (PyRef s) ctl) ∧
    PyRef s ≠ store ∧
    heap w !! s = None ∧
    heap (ModbusServerFactory env store framer identity w).2 !! s =
      Some (ModbusServerContext_obj ∅).
Proof.
  intros Hfalse.
  destruct (ModbusServerFactory_cells env store framer identity w)
    as (fac & ctl & Hret & _ & Hfac & _ & _ & Hctx & _).
  rewrite Hfalse in Hfac, Hctx.
  eexists fac, _, _, _, ctl. split; [done|]. split; [exact Hfac|].
  split; [|split; [apply lookup_ge_None; lia|done]].
  intros <-. apply falsy_ref_live in Hfalse. lia.
Qed.

Lemma ModbusServerFactory_falsy_store_witness :
  ∃ fac dec fr s ctl,
    (ModbusServerFactory (demo_env demo_read) (PyRef 0%nat) PyNone PyNone
                         demo_empty_store).1 = Return fac ∧
    heap (ModbusServerFactory (demo_env demo_read) (PyRef 0%nat) PyNone PyNone
                              demo_empty_store).2 !! fac =
      Some (ModbusServerFactory_obj dec fr (PyRef s) ctl) ∧
    PyRef s ≠ PyRef 0%nat ∧
    heap demo_empty_store !! s = None ∧
    heap (ModbusServerFactory (demo_env demo_read) (PyRef 0%nat) PyNone PyNone
                              demo_empty_store).2 !! s =
      Some (ModbusServerContext_obj ∅).
Proof.
  apply (ModbusServerFactory_falsy_store (demo_env demo_read) (PyRef 0%nat)
           PyNone PyNone demo_empty_store).
  reflexivity.
Defined.

Example ModbusServerFactory_identity_given :
  heap (ModbusServerFactory (demo_env demo_read) (PyRef 0%nat) PyNone (PyRef 1%nat)
                            demo_start).2 !! 3%nat =
    Some (ModbusControlBlock_obj {[ 0 := "pymodbus"%string ]}) ∧
  identity_updates
    (new_events (ModbusServerFactory (demo_env demo_read) (PyRef 0%nat) PyNone
                                     (PyRef 1%nat)) demo_start) =
    [(3%nat, PyRef 1%nat)].
Proof. split; reflexivity. Qed.

Example ModbusServerFactory_identity_not_given :
  heap (ModbusServerFactory (demo_env demo_read) (PyRef 0%nat) PyNone (PyRef 0%nat)
                            demo_start).2 !! 3%nat =
    Some (ModbusControlBlock_obj ∅) ∧
  identity_updates
    (new_events (ModbusServerFactory (demo_env demo_read) (PyRef 0%nat) PyNone
                                     (PyRef 0%nat)) demo_start) = [].
Proof. split; reflexivity. Qed.

(** ** [StartSerialServer] *)

Lemma serial_ports_app tr1 tr2 :
  serial_ports (tr1 ++ tr2) = serial_ports tr1 ++ serial_ports tr2.
Proof.
  induction tr1 as [|e tr1 IH]; [done|].
  destruct e; simpl; rewrite IH; done.
Qed.



(** Without a device the call stops at the log line: no factory is built
    and no port is opened. *)
Lemma StartSerialServer_no_device env context identity framer kwargs w :
  kwargs !! "device"%string = None →
  StartSerialServer env context identity framer kwargs w = (Raise KeyError, w).
Proof.
  intros Hdev. unfold StartSerialServer, kwargs_getitem, bind at 1.
  by rewrite Hdev.
Qed.

(** ** The concrete scenarios are runs of the code *)

Example demo_connected_is_a_run :
  heap ((fac <- ModbusServerFactory (demo_env demo_read) (PyRef 0%nat) PyNone PyNone ;;
         p <- buildProtocol fac ;;
         connectionMade p) demo_start).2 = heap (demo_connected []).
Proof. reflexivity. Qed.

Example demo_two_is_a_run :
  heap (run_all (demo_env demo_read) demo_calls demo_start) =
  heap (demo_two [Byte.x05] []).
Proof. reflexivity. Qed.

(** One chunk with two pipelined reads, unit 1 then the undefined unit 2. *)
Example demo_pipelined :
  messages (new_events
              (dataReceived (demo_env demo_read) 5%nat
                            [Byte.x05; Byte.x01; Byte.x05; Byte.x02])
              (demo_connected [])) =
    [Response.mk 5 1 3 (Response.Normal [10; 20]);
     Response.mk 5 2 131 (Response.Exception merror.SlaveFailure)].
Proof. reflexivity. Qed.

(** * Further properties of the module *)

(** ** [send] *)

(** X1.  [send] changes no object; either the handler has a framer instance, and
    the message is serialised by it, logged and written once to the
    handler's transport, or [send] raises [AttributeError] having serialised
    and written nothing. *)
Theorem send_outcome env self message w :
  heap (send env self message w).2 = heap w ∧
  ((∃ fac f c d buf,
      connected (heap w) self fac f c d buf ∧
      (send env self message w).1 = Return tt ∧
      new_events (send env self message) w = sent_events env self f c message) ∨
   ((send env self message w).1 = Raise AttributeError ∧
    new_events (send env self message) w = [])).
Proof.
  split; [apply send_heap|].
  destruct (heap w !! self) as [[| | | | |fac [f|]| |]|] eqn:Hp.
  6: destruct (heap w !! f) as [[| | | |c d buf| | |]|] eqn:Hf.
  10: { left. exists fac, f, c, d, buf.
        assert (connected (heap w) self fac f c d buf) as Hc by done.
        split; [done|].
        split; [by rewrite (send_connected env _ message _ _ _ _ _ _ Hc)|].
        apply new_events_app.
        by rewrite (send_connected env _ message _ _ _ _ _ _ Hc). }
  all: right; unfold new_events, send, self_framer, Framer_buildPacket, deref,
         bind, ret, raise, emit; simpl; rewrite Hp; simpl; rewrite ?Hf; simpl;
         by rewrite drop_all.
Qed.

(** ** [execute] and the store *)

Lemma execute_heap env self request w :
  heap (execute env self request w).2 = heap (execute_try self request w).2.
Proof.
  unfold execute, bind. rewrite execute_response_eq.
  destruct (execute_try self request w) as [[r|ex] w1]; simpl.
  - by rewrite send_heap.
  - destruct (isinstance_Exception ex); [|done].
    destruct (PyExc_str ex); [|done]. by rewrite send_heap.
Qed.

(** The [try] suite when the unit has an entry. *)
Lemma execute_try_entry self request w fac fr dec cls s ctl slaves ctx :
  heap w !! self = Some (ModbusProtocol_obj fac fr) →
  heap w !! fac = Some (ModbusServerFactory_obj dec cls (PyRef s) ctl) →
  heap w !! s = Some (ModbusServerContext_obj slaves) →
  slaves !! Request.unit_id request = Some ctx →
  execute_try self request w =
    ((Request.execute request ctx).1,
     {| heap := <[s := ModbusServerContext_obj
                         (<[Request.unit_id request :=
                              (Request.execute request ctx).2]> slaves)]> (heap w);
        trace := trace w |}).
Proof.
  intros Hp Hfac Hs Hu.
  unfold execute_try, self_factory_store, self_factory, factory_store,
    store_getitem, Request_execute, deref, bind, ret, raise.
  simpl. rewrite Hp. simpl. rewrite Hfac. simpl. rewrite Hs. simpl.
  rewrite Hu. simpl. rewrite Hs. by rewrite Hu.
Qed.

(** X2.  [execute] changes nothing but datastore contexts: no object is created,
    and every object that is not a datastore context (handlers, framers and
    their buffers, factories, control blocks) is left as it was. *)
Theorem execute_changes_only_store env self request w :
  length (heap (execute env self request w).2) = length (heap w) ∧
  ∀ r o,
    heap w !! r = Some o →
    is_context o = false →
    heap (execute env self request w).2 !! r = Some o.
Proof.
  pose proof (execute_steps env self request w) as Hst.
  split; [by apply store_steps_length|].
  intros r o Hr Ho. by eapply store_steps_other.
Qed.

Lemma execute_changes_only_store_witness :
  heap (execute (demo_env demo_read) 5%nat (demo_write_then_fail 9 1 77)
                (demo_connected [Byte.x05])).2 !! 6%nat =
    Some (Framer_obj ModbusSocketFramer 2%nat [Byte.x05]).
Proof.
  exact (proj2 (execute_changes_only_store (demo_env demo_read) 5%nat
                  (demo_write_then_fail 9 1 77) (demo_connected [Byte.x05]))
           6%nat _ eq_refl eq_refl).
Defined.

Lemma execute_slaves env self request w fac fr slaves ctx :
  heap w !! self = Some (ModbusProtocol_obj fac fr) →
  factory_slaves (heap w) fac slaves →
  slaves !! Request.unit_id request = Some ctx →
  factory_slaves (heap (execute env self request w).2) fac
    (<[Request.unit_id request := (Request.execute request ctx).2]> slaves).
Proof.
  intros Hp (dec & cls & s & ctl & Hfac & Hs) Hu.
  rewrite execute_heap.
  rewrite (execute_try_entry _ _ _ _ _ _ _ _ _ _ _ Hp Hfac Hs Hu). simpl.
  exists dec, cls, s, ctl. split.
  - rewrite list_lookup_insert_ne; [done|]. congruence.
  - apply list_lookup_insert_eq. by eapply lookup_lt_Some.
Qed.

(** X3.  The request runs against the store's own slave context: after [execute]
    the store maps the unit to the context as the request left it, whether
    the request returned or raised and whether or not a response could be
    sent, and every other unit is as before. *)
Theorem execute_updates_store env self request w fac fr slaves ctx :
  heap w !! self = Some (ModbusProtocol_obj fac fr) →
  factory_slaves (heap w) fac slaves →
  slaves !! Request.unit_id request = Some ctx →
  factory_slaves (heap (execute env self request w).2) fac
    (<[Request.unit_id request := (Request.execute request ctx).2]> slaves).
Proof.
  intros Hp (dec & cls & s & ctl & Hfac & Hs) Hu.
  assert (fac ≠ s) as Hne by congruence.
  rewrite execute_heap.
  rewrite (execute_try_entry _ _ _ _ _ _ _ _ _ _ _ Hp Hfac Hs Hu). simpl.
  exists dec, cls, s, ctl. split.
  - by rewrite list_lookup_insert_ne.
  - apply list_lookup_insert_eq. by eapply lookup_lt_Some.
Qed.

Lemma execute_updates_store_witness :
  factory_slaves
    (heap (execute (demo_env demo_read) 5%nat (demo_write_then_fail 9 1 77)
                   (demo_unconnected)).2)
    4%nat
    (<[1 := <[0 := 77]> {[ 0 := 10; 1 := 20 ]}]>
       {[ 1 := {[ 0 := 10; 1 := 20 ]}; 3 := ∅ ]}).
Proof.
  apply (execute_updates_store (demo_env demo_read) 5%nat
           (demo_write_then_fail 9 1 77) demo_unconnected 4%nat None
           {[ 1 := {[ 0 := 10; 1 := 20 ]}; 3 := ∅ ]} {[ 0 := 10; 1 := 20 ]}).
  - reflexivity.
  - exists 2%nat, (PyFramerClass ModbusSocketFramer), 0%nat, 3%nat. done.
  - reflexivity.
Defined.

(** X4.  A request for a unit that has no entry changes no object at all. *)
Theorem execute_no_entry_changes_nothing env self request w fac fr :
  heap w !! self = Some (ModbusProtocol_obj fac fr) →
  no_entry (heap w) fac (Request.unit_id request) →
  heap (execute env self request w).2 = heap w.
Proof.
  intros Hp Hno. rewrite execute_heap.
  by rewrite (execute_try_no_entry _ _ _ _ _ Hp Hno).
Qed.

Lemma execute_no_entry_changes_nothing_witness :
  heap (execute (demo_env demo_read) 5%nat (demo_write_then_fail 9 2 77)
                (demo_connected [])).2 = heap (demo_connected []).
Proof.
  apply (execute_no_entry_changes_nothing (demo_env demo_read) 5%nat
           (demo_write_then_fail 9 2 77) (demo_connected []) 4%nat (Some 6%nat)).
  - reflexivity.
  - eexists. split; [apply demo_factory_slaves|]. reflexivity.
Defined.

(** X5.  The store is shared by the handlers of a factory: what a request
    executed through one handler left in a unit's context is what the next
    request for that unit, through any handler of the factory, runs
    against. *)
Theorem execute_shared_store env p q r1 r2 w fac frp frq slaves ctx :
  heap w !! p = Some (ModbusProtocol_obj fac frp) →
  heap w !! q = Some (ModbusProtocol_obj fac frq) →
  factory_slaves (heap w) fac slaves →
  slaves !! Request.unit_id r1 = Some ctx →
  Request.unit_id r2 = Request.unit_id r1 →
  (execute_try q r2 (execute env p r1 w).2).1 =
    (Request.execute r2 (Request.execute r1 ctx).2).1.
Proof.
  intros Hp Hq Hsl Hu Heq.
  pose proof (execute_slaves env p r1 w fac frp slaves ctx Hp Hsl Hu)
    as (dec & cls & s & ctl & Hfac' & Hs').
  pose proof (store_steps_other _ _ q _ (execute_steps env p r1 w) Hq eq_refl)
    as Hq'.
  erewrite execute_try_entry; [done|exact Hq'|exact Hfac'|exact Hs'|].
  rewrite Heq. apply lookup_insert_eq.
Qed.

Lemma execute_shared_store_witness :
  (execute_try 7%nat (demo_read 10 1)
     (execute (demo_env demo_read) 5%nat (demo_write_then_fail 9 1 77)
              (demo_two [] [])).2).1 =
    Return (Response.mk 0 0 3 (Response.Normal [77; 20])).
Proof.
  etrans.
  - apply (execute_shared_store (demo_env demo_read) 5%nat 7%nat
             (demo_write_then_fail 9 1 77) (demo_read 10 1) (demo_two [] [])
             4%nat (Some 6%nat) (Some 8%nat)
             {[ 1 := {[ 0 := 10; 1 := 20 ]}; 3 := ∅ ]} {[ 0 := 10; 1 := 20 ]}).
    + reflexivity.
    + reflexivity.
    + exists 2%nat, (PyFramerClass ModbusSocketFramer), 0%nat, 3%nat. done.
    + reflexivity.
    + reflexivity.
  - reflexivity.
Defined.

Lemma execute_response_steps self request w :
  rtc store_step (heap w) (heap (execute_response self request w).2).
Proof.
  destruct (execute_try_footprint self request w) as [_ Hst].
  rewrite execute_response_eq.
  destruct (execute_try self request w) as [[r|ex] w1]; simpl in *; [done|].
  destruct (isinstance_Exception ex); [|done]. by destruct (PyExc_str ex).
Qed.

Lemma send_no_framer env self message w fac :
  heap w !! self = Some (ModbusProtocol_obj fac None) →
  send env self message w = (Raise AttributeError, w).
Proof.
  intros Hp. unfold send, self_framer, deref, bind, ret, raise.
  simpl. by rewrite Hp.
Qed.

(** X6.  On a handler that has no framer yet (before [connectionMade]) the
    request is still looked up and executed, with its effect on the store,
    and only then does [execute] raise [AttributeError]: the response is
    built but never serialised or written. *)
Theorem execute_without_framer env self request w fac response w1 :
  heap w !! self = Some (ModbusProtocol_obj fac None) →
  execute_response self request w = (Return response, w1) →
  execute env self request w = (Raise AttributeError, w1) ∧
  heap w1 = heap (execute_try self request w).2 ∧
  messages (new_events (execute env self request) w) = [] ∧
  writes (new_events (execute env self request) w) = [].
Proof.
  intros Hp E.
  pose proof (execute_response_steps self request w) as Hst.
  rewrite E in Hst. simpl in Hst.
  assert (execute env self request w = (Raise AttributeError, w1)) as Eexec.
  { unfold execute, bind. rewrite E.
    eapply send_no_framer. by eapply store_steps_other. }
  split; [done|]. split.
  - by rewrite <- (execute_heap env), Eexec.
  - destruct (execute_trace env self request w) as (evs & Htr & _).
    revert E. rewrite execute_response_eq.
    destruct (execute_try_footprint self request w) as [Htry _].
    destruct (execute_try self request w) as [[r|ex] w2]; simpl in *.
    + intros [= <- <-]. unfold new_events. rewrite Eexec. simpl.
      by rewrite Htry, drop_all.
    + destruct (isinstance_Exception ex); [|done].
      destruct (PyExc_str ex); [|done].
      intros [= <- <-]. unfold new_events. rewrite Eexec. simpl.
      by rewrite Htry, drop_app_length.
Qed.

Lemma execute_without_framer_witness :
  (execute (demo_env demo_read) 5%nat (demo_write_then_fail 9 1 77)
           demo_unconnected).1 = Raise AttributeError ∧
  writes (new_events (execute (demo_env demo_read) 5%nat
                              (demo_write_then_fail 9 1 77)) demo_unconnected) = [].
Proof.
  destruct (execute_without_framer (demo_env demo_read) 5%nat
              (demo_write_then_fail 9 1 77) demo_unconnected 4%nat
              (error_response (demo_write_then_fail 9 1 77))
              (execute_response 5%nat (demo_write_then_fail 9 1 77)
                                demo_unconnected).2
              eq_refl eq_refl) as (H1 & _ & _ & H2).
  split; [by rewrite H1|exact H2].
Defined.

(** ** [dataReceived] and the framer's buffer *)

(** X7.  Data received by a handler that has no framer yet is logged and then
    [dataReceived] raises [AttributeError]: nothing is buffered, decoded or
    answered. *)
Theorem dataReceived_without_framer env self data w fac :
  heap w !! self = Some (ModbusProtocol_obj fac None) →
  dataReceived env self data w =
    (Raise AttributeError,
     {| heap := heap w; trace := trace w ++ [Log_debug (Msg_Data data)] |}).
Proof.
  intros Hp.
  unfold dataReceived, self_framer, deref, bind, emit, ret, raise.
  simpl. by rewrite Hp.
Qed.

Lemma dataReceived_without_framer_witness :
  dataReceived (demo_env demo_read) 5%nat [Byte.x05; Byte.x01] demo_unconnected =
    (Raise AttributeError,
     {| heap := heap demo_unconnected;
        trace := [Log_debug (Msg_Data [Byte.x05; Byte.x01])] |}).
Proof.
  exact (dataReceived_without_framer (demo_env demo_read) 5%nat
           [Byte.x05; Byte.x01] demo_unconnected 4%nat eq_refl).
Defined.

(** X8.  A chunk that completes no frame is only buffered: [dataReceived]
    returns, the handler's framer holds what the framer left undecoded, no
    other object changes, and nothing is executed or sent. *)
Theorem dataReceived_incomplete_frame env self data w fac f c d buf :
  connected (heap w) self fac f c d buf →
  (decodeFrames env c (buf ++ data)).1 = [] →
  dataReceived env self data w =
    (Return tt,
     {| heap := <[f := Framer_obj c d (decodeFrames env c (buf ++ data)).2]> (heap w);
        trace := trace w ++ [Log_debug (Msg_Data data)] |}).
Proof.
  intros [Hp Hf] Hnone.
  unfold dataReceived, processIncomingPacket, self_framer, deref, bind, emit,
    ret, raise, assign.
  simpl. rewrite Hp. simpl. rewrite Hf. simpl. by rewrite Hnone.
Qed.

Lemma dataReceived_incomplete_frame_witness :
  dataReceived (demo_env demo_read) 5%nat [Byte.x05] (demo_connected []) =
    (Return tt,
     {| heap := heap (demo_connected [Byte.x05]);
        trace := [Log_debug (Msg_Data [Byte.x05])] |}).
Proof.
  exact (dataReceived_incomplete_frame (demo_env demo_read) 5%nat [Byte.x05]
           (demo_connected []) 4%nat 6%nat ModbusSocketFramer 2%nat []
           (demo_is_connected []) eq_refl).
Defined.

(** X9.  What one call of [dataReceived] leaves undecoded is what the next call
    starts from.  For a handler whose factory holds a datastore context:
    after a chunk whose requests raise only instances of [Exception] that
    the log line of the handler can format, the handler is bound to the same
    framer, the framer holds the undecoded rest, and the next chunk, if its
    requests raise only such exceptions too, is decoded after that rest and
    answered request by request. *)
Theorem dataReceived_continues env self data1 data2 w fac f c d buf slaves :
  connected (heap w) self fac f c d buf →
  factory_slaves (heap w) fac slaves →
  Forall raises_only_loggable (decodeFrames env c (buf ++ data1)).1 →
  Forall raises_only_loggable
    (decodeFrames env c ((decodeFrames env c (buf ++ data1)).2 ++ data2)).1 →
  connected (heap (dataReceived env self data1 w).2) self fac f c d
            (decodeFrames env c (buf ++ data1)).2 ∧
  (dataReceived env self data2 (dataReceived env self data1 w).2).1 = Return tt ∧
  Forall2 answers
    (decodeFrames env c ((decodeFrames env c (buf ++ data1)).2 ++ data2)).1
    (messages (new_events (dataReceived env self data2)
                          (dataReceived env self data1 w).2)).
Proof.
  intros Hc _ H1 H2.
  destruct (dataReceived_connected env self data1 w _ _ _ _ _ Hc H1)
    as (w1 & evs1 & E1 & Hc1 & _).
  rewrite E1. simpl. split; [done|].
  destruct (dataReceived_connected env self data2 w1 _ _ _ _ _ Hc1 H2)
    as (w2 & evs2 & E2 & _ & Htr2 & Hall & _).
  split; [by rewrite E2|].
  erewrite new_events_app by (rewrite E2; exact Htr2). done.
Qed.

Lemma dataReceived_continues_witness :
  connected
    (heap (dataReceived (demo_env demo_read) 5%nat [Byte.x05; Byte.x01; Byte.x07]
                        (demo_connected [])).2)
    5%nat 4%nat 6%nat ModbusSocketFramer 2%nat [Byte.x07] ∧
  (dataReceived (demo_env demo_read) 5%nat [Byte.x03]
     (dataReceived (demo_env demo_read) 5%nat [Byte.x05; Byte.x01; Byte.x07]
                   (demo_connected [])).2).1 = Return tt ∧
  Forall2 answers [demo_read 7 3]
    (messages
       (new_events (dataReceived (demo_env demo_read) 5%nat [Byte.x03])
          (dataReceived (demo_env demo_read) 5%nat [Byte.x05; Byte.x01; Byte.x07]
                        (demo_connected [])).2)).
Proof.
  apply (dataReceived_continues (demo_env demo_read) 5%nat
           [Byte.x05; Byte.x01; Byte.x07] [Byte.x03] (demo_connected [])
           4%nat 6%nat ModbusSocketFramer 2%nat []
           {[ 1 := {[ 0 := 10; 1 := 20 ]}; 3 := ∅ ]}).
  - apply demo_is_connected.
  - apply demo_factory_slaves.
  - simpl. constructor; [apply demo_read_raises_only_loggable|constructor].
  - simpl. constructor; [apply demo_read_raises_only_loggable|constructor].
Defined.

(** ** [connectionMade] and the factory's framer *)

Lemma connectionMade_not_callable w self fac fr dec cls st ctl :
  heap w !! self = Some (ModbusProtocol_obj fac fr) →
  heap w !! fac = Some (ModbusServerFactory_obj dec cls st ctl) →
  (∀ c, cls ≠ PyFramerClass c) →
  connectionMade self w =
    (Raise TypeError,
     {| heap := heap w;
        trace := trace w ++ [Log_debug (Msg_ClientConnected self)] |}).
Proof.
  intros Hp Hfac Hcls.
  unfold connectionMade, self_factory, factory_framer, factory_decoder,
    Framer_call, deref, bind, emit, ret, raise.
  simpl. rewrite Hp. simpl. rewrite Hfac. simpl. rewrite Hp. simpl.
  rewrite Hfac. simpl.
  destruct cls as [| | |c|]; try done. by destruct (Hcls c).
Qed.

(** X11.  The factory does not check its [framer] argument: a non-zero integer is
    true, so it is kept in place of a framer class, and every connection of
    such a factory fails in [connectionMade] with [TypeError], leaving the
    handler without a framer. *)
Theorem connectionMade_integer_framer env store identity z w :
  z ≠ 0 →
  ∃ fac p w',
    (fac <- ModbusServerFactory env store (PyInt z) identity ;;
     p <- buildProtocol fac ;;
     connectionMade p) w = (Raise TypeError, w') ∧
    (∃ dec st ctl,
       heap w' !! fac = Some (ModbusServerFactory_obj dec (PyInt z) st ctl)) ∧
    heap w' !! p = Some (ModbusProtocol_obj fac None).
Proof.
  intros Hz.
  destruct (ModbusServerFactory_cells env store (PyInt z) identity w)
    as (fac & ctl & Hret & _ & Hfac & _).
  assert (truthy env (heap w) (PyInt z) = true) as Ht.
  { simpl. apply negb_true_iff, Z.eqb_neq, Hz. }
  rewrite Ht in Hfac.
  unfold bind at 1 2.
  destruct (ModbusServerFactory env store (PyInt z) identity w) as [[fac'|ex] w1];
    simplify_eq/=.
  exists fac, (length (heap w1)). eexists. split.
  - unfold buildProtocol, alloc. simpl.
    eapply connectionMade_not_callable; simpl.
    + by rewrite lookup_app_r, Nat.sub_diag by lia.
    + by apply lookup_app_l_Some.
    + done.
  - simpl. split.
    + eexists _, _, _. by apply lookup_app_l_Some.
    + by rewrite lookup_app_r, Nat.sub_diag by lia.
Qed.

Lemma connectionMade_integer_framer_witness :
  ∃ fac p w',
    (fac <- ModbusServerFactory (demo_env demo_read) (PyRef 0%nat) (PyInt 5) PyNone ;;
     p <- buildProtocol fac ;;
     connectionMade p) demo_start = (Raise TypeError, w') ∧
    (∃ dec st ctl,
       heap w' !! fac = Some (ModbusServerFactory_obj dec (PyInt 5) st ctl)) ∧
    heap w' !! p = Some (ModbusProtocol_obj fac None).
Proof.
  apply (connectionMade_integer_framer (demo_env demo_read) (PyRef 0%nat) PyNone 5
           demo_start).
  discriminate.
Defined.

(** ** [ModbusServerFactory] and what it leaves alone *)

Lemma ModbusServerFactory_new_cells env store framer identity w r o :
  heap (ModbusServerFactory env store framer identity w).2 !! r = Some o →
  heap w !! r = Some o ∨
  ((length (heap w) ≤ r)%nat ∧
   ∀ fac fr, o ≠ ModbusProtocol_obj fac fr).
Proof.
  rewrite ModbusServerFactory_spec. simpl. intros Hr.
  apply lookup_app_Some in Hr as [Hr|[Hlen Hr]]; [by left|].
  right. split; [done|]. intros fac fr ->.
  destruct (truthy env (heap w) store);
    destruct (r - length (heap w))%nat as [|[|[|[|k]]]]; simplify_eq/=.
Qed.

(** X12.  Building a factory never raises; the factory is a new object, no
    handler is created, and no object that existed before, the store and
    the identity passed in included, is changed. *)
Theorem ModbusServerFactory_changes_nothing env store framer identity w :
  ∃ fac,
    (ModbusServerFactory env store framer identity w).1 = Return fac ∧
    heap w !! fac = None ∧
    (∀ r o, heap w !! r = Some o →
            heap (ModbusServerFactory env store framer identity w).2 !! r = Some o) ∧
    (∀ r fac' fr,
       heap (ModbusServerFactory env store framer identity w).2 !! r =
         Some (ModbusProtocol_obj fac' fr) →
       heap w !! r = Some (ModbusProtocol_obj fac' fr)).
Proof.
  exists (length (heap w) + (if truthy env (heap w) store then 2 else 3))%nat.
  split; [by rewrite ModbusServerFactory_spec|].
  split; [apply lookup_ge_None; lia|]. split.
  - intros r o Hr. rewrite ModbusServerFactory_spec. simpl.
    by apply lookup_app_l_Some.
  - intros r fac' fr Hr.
    apply ModbusServerFactory_new_cells in Hr as [Hr|[_ Hr]]; [done|].
    by destruct (Hr fac' fr).
Qed.

Lemma ModbusServerFactory_changes_nothing_witness :
  ∃ fac,
    (ModbusServerFactory (demo_env demo_read) (PyRef 0%nat) PyNone (PyRef 1%nat)
                         demo_start).1 = Return fac ∧
    heap demo_start !! fac = None ∧
    heap (ModbusServerFactory (demo_env demo_read) (PyRef 0%nat) PyNone (PyRef 1%nat)
                              demo_start).2 !! 1%nat =
      Some (ModbusDeviceIdentification_obj {[ 0 := "pymodbus"%string ]}).
Proof.
  destruct (ModbusServerFactory_changes_nothing (demo_env demo_read) (PyRef 0%nat)
              PyNone (PyRef 1%nat) demo_start) as (fac & H1 & H2 & H3 & _).
  exists fac. split; [exact H1|]. split; [exact H2|].
  exact (H3 1%nat _ eq_refl).
Defined.

(** ** The configuration is fixed *)

Lemma config_kept_refl h : config_kept h h.
Proof. split; eauto. Qed.

Lemma config_kept_trans h1 h2 h3 :
  config_kept h1 h2 → config_kept h2 h3 → config_kept h1 h3.
Proof.
  intros [Hf1 Hp1] [Hf2 Hp2]. split.
  - eauto.
  - intros p fac fr Hp. destruct (Hp1 _ _ _ Hp) as [fr' Hp']. eauto.
Qed.

Lemma cell_step_config h h' : cell_step h h' → config_kept h h'.
Proof.
  destruct 1 as [s o o' Hs Hmut|o Ho]; split.
  - intros fac d fr st ctl Hfac. rewrite list_lookup_insert_ne; [done|].
    intros ->. rewrite Hs in Hfac. simplify_eq. by destruct o'.
  - intros p fac fr Hp. exists fr. rewrite list_lookup_insert_ne; [done|].
    intros ->. rewrite Hs in Hp. simplify_eq. by destruct o'.
  - intros fac d fr st ctl Hfac. by apply lookup_app_l_Some.
  - intros p fac fr Hp. exists fr. by apply lookup_app_l_Some.
Qed.

Lemma cell_steps_config h h' : rtc cell_step h h' → config_kept h h'.
Proof.
  induction 1 as [|h1 h2 h3 H12 _ IH]; [apply config_kept_refl|].
  eapply config_kept_trans; [by apply cell_step_config|done].
Qed.

Lemma connectionMade_config w self :
  config_kept (heap w) (heap (connectionMade self w).2).
Proof.
  destruct (connectionMade_footprint w self)
    as [->|(fac & fr & c & dec & Hp & ->)]; [apply config_kept_refl|].
  split.
  - intros fac' d fr' st ctl Hfac.
    rewrite list_lookup_insert_ne by congruence. by apply lookup_app_l_Some.
  - intros p fac' fr' Hp'. destruct (decide (p = self)) as [->|Hne].
    + rewrite Hp in Hp'. simplify_eq. eexists.
      apply list_lookup_insert_eq. rewrite length_app.
      apply lookup_lt_Some in Hp. lia.
    + exists fr'. rewrite list_lookup_insert_ne by done.
      by apply lookup_app_l_Some.
Qed.

Lemma run_config env c w : config_kept (heap w) (heap (run env c w).2).
Proof.
  destruct c as [store framer identity|factory|self|self data|self reason];
    cbn [run].
  - apply cell_steps_config.
    apply bind_steps; [apply ModbusServerFactory_steps|done].
  - apply cell_steps_config. apply bind_steps; [by apply alloc_steps|done].
  - apply connectionMade_config.
  - apply cell_steps_config, dataReceived_steps.
  - apply config_kept_refl.
Qed.

(** X13.  Whatever calls the server receives (factories built, handlers built,
    connections made and lost, data received and executed), a factory keeps
    the decoder, framer, store and control block it was built with, and a
    handler keeps the factory it was built for. *)
Theorem configuration_is_fixed env calls w :
  config_kept (heap w) (heap (run_all env calls w)).
Proof.
  revert w. induction calls as [|c calls IH]; intros w; [apply config_kept_refl|].
  simpl. eapply config_kept_trans; [apply run_config|apply IH].
Qed.

(** X14.  In every world the server reaches, a handler that has a framer can
    send: [send] returns, having written exactly one packet, the message as
    its framer serialises it, to the handler's own transport. *)
Theorem reachable_send_succeeds env w self fac f message :
  reachable env w →
  heap w !! self = Some (ModbusProtocol_obj fac (Some f)) →
  (send env self message w).1 = Return tt ∧
  messages (new_events (send env self message) w) = [message] ∧
  ∃ c d buf,
    heap w !! f = Some (Framer_obj c d buf) ∧
    writes (new_events (send env self message) w) =
      [(self, buildPacket env c message)].
Proof.
  intros Hw Hp.
  destruct (reachable_owned env w Hw) as [_ Hlive].
  destruct (Hlive _ _ _ Hp) as (c & d & buf & Hf).
  assert (connected (heap w) self fac f c d buf) as Hc by done.
  pose proof (send_connected env self message w _ _ _ _ _ Hc) as E.
  split; [by rewrite E|].
  split; [by erewrite new_events_app by (rewrite E; done)|].
  exists c, d, buf. split; [done|].
  by erewrite new_events_app by (rewrite E; done).
Qed.

Lemma reachable_send_succeeds_witness :
  (send (demo_env demo_read) 7%nat (Response.mk 1 1 3 (Response.Normal []))
        (run_all (demo_env demo_read) demo_calls demo_start)).1 = Return tt ∧
  messages (new_events
              (send (demo_env demo_read) 7%nat
                    (Response.mk 1 1 3 (Response.Normal [])))
              (run_all (demo_env demo_read) demo_calls demo_start)) =
    [Response.mk 1 1 3 (Response.Normal [])].
Proof.
  destruct (reachable_send_succeeds (demo_env demo_read)
              (run_all (demo_env demo_read) demo_calls demo_start)
              7%nat 4%nat 8%nat (Response.mk 1 1 3 (Response.Normal [])))
    as (H1 & H2 & _).
  - apply reachable_run_all, reachable_initial, demo_start_initial.
  - reflexivity.
  - exact (conj H1 H2).
Defined.

Lemma configuration_is_fixed_witness :
  heap (run_all (demo_env demo_read)
          [Data_received 5%nat [Byte.x05; Byte.x01]; Connection_made 5%nat;
           Connection_lost 5%nat PyNone]
          (demo_connected [])) !! 4%nat =
    Some (ModbusServerFactory_obj 2%nat (PyFramerClass ModbusSocketFramer)
                                  (PyRef 0%nat) 3%nat).
Proof.
  exact (proj1 (configuration_is_fixed (demo_env demo_read)
                  [Data_received 5%nat [Byte.x05; Byte.x01]; Connection_made 5%nat;
                   Connection_lost 5%nat PyNone]
                  (demo_connected []))
           4%nat _ _ _ _ eq_refl).
Defined.

(** ** The starting functions *)

(** What [StartTcpServer] leaves, in terms of the factory it builds. *)
Lemma StartTcpServer_eq env reactor context identity w :
  StartTcpServer env reactor context identity w =
    match ModbusServerFactory env context (PyFramerClass ModbusSocketFramer) identity
            {| heap := heap w;
               trace := trace w ++ [Log_info (Msg_StartingTcp (Defaults_Port env))] |}
    with
    | (Return fac, w1) =>
        match bind_TCP reactor (Defaults_Port env) with
        | Return _ =>
            (run_loop reactor,
             {| heap := heap w1;
                trace := trace w1 ++
                         [Call_listenTCP (Defaults_Port env) fac; Call_reactor_run] |})
        | Raise ex =>
            (Raise ex,
             {| heap := heap w1;
                trace := trace w1 ++ [Call_listenTCP (Defaults_Port env) fac] |})
        end
    | (Raise ex, w1) => (Raise ex, w1)
    end.
Proof.
  unfold StartTcpServer, listenTCP, reactor_run, bind, emit, ret.
  cbn -[ModbusServerFactory].
  destruct (ModbusServerFactory _ _ _ _ _) as [[fac|ex] w1]; [|done].
  cbn. destruct (bind_TCP reactor (Defaults_Port env)); [|done].
  cbn. by rewrite <- app_assoc.
Qed.

(** A factory cannot be connected as a protocol. *)
Lemma makeConnection_factory self dec fr st ctl w :
  heap w !! self = Some (ModbusServerFactory_obj dec fr st ctl) →
  makeConnection self w = (Raise AttributeError, w).
Proof. intros Hs. unfold makeConnection, deref, bind, raise. by rewrite Hs. Qed.

Lemma StartUdpServer_eq env reactor context identity w :
  StartUdpServer env reactor context identity w =
    match ModbusServerFactory env context (PyFramerClass ModbusSocketFramer) identity
            {| heap := heap w;
               trace := trace w ++ [Log_info (Msg_StartingUdp (Defaults_Port env))] |}
    with
    | (Return fac, w1) =>
        (match bind_UDP reactor (Defaults_Port env) with
         | Return _ =>
             (makeConnection fac
                {| heap := heap w1;
                   trace := trace w1 ++ [Call_listenUDP (Defaults_Port env) fac] |}).1
         | Raise ex => Raise ex
         end,
         {| heap := heap w1;
            trace := trace w1 ++ [Call_listenUDP (Defaults_Port env) fac] |})
    | (Raise ex, w1) => (Raise ex, w1)
    end.
Proof.
  unfold StartUdpServer, listenUDP, bind, emit, ret.
  cbn -[ModbusServerFactory makeConnection].
  match goal with
  | |- context [ModbusServerFactory ?e ?c ?f ?i ?w1] =>
      destruct (ModbusServerFactory_cells e c f i w1)
        as (fac & ctl & Hret & _ & Hfac & _);
      destruct (ModbusServerFactory e c f i w1) as [[fac'|ex] w2]
  end; simplify_eq/=.
  destruct (bind_UDP reactor (Defaults_Port env)); [|done].
  by erewrite makeConnection_factory.
Qed.

(** X15.  [StartTcpServer] hands [reactor.listenTCP] a factory it has just
    built over [ModbusSocketFramer], on [Defaults.Port]: building the factory
    cannot fail, whatever the context and the identity are, and its store is
    the context passed in when that is true in Python's sense.  If the port
    cannot be bound, the error leaves [StartTcpServer] and the reactor is not
    run; otherwise the reactor is run next, and [StartTcpServer] ends as the
    loop ends. *)
Theorem StartTcpServer_outcome env reactor context identity w :
  ∃ fac dec ctl rest,
    heap (StartTcpServer env reactor context identity w).2 !! fac =
      Some (ModbusServerFactory_obj dec (PyFramerClass ModbusSocketFramer)
              (if truthy env (heap w) context then context
               else PyRef (length (heap w) + 1)%nat) ctl) ∧
    (StartTcpServer env reactor context identity w).1 =
      match bind_TCP reactor (Defaults_Port env) with
      | Return _ => run_loop reactor
      | Raise ex => Raise ex
      end ∧
    new_events (StartTcpServer env reactor context identity) w =
      Log_info (Msg_StartingTcp (Defaults_Port env)) ::
      (if isinstance_ModbusDeviceIdentification (heap w) identity
       then [Call_Identity_update ctl identity] else []) ++
      Call_listenTCP (Defaults_Port env) fac ::
      match bind_TCP reactor (Defaults_Port env) with
      | Return _ => Call_reactor_run :: rest
      | Raise _ => []
      end.
Proof.
  unfold new_events. rewrite StartTcpServer_eq.
  match goal with
  | |- context [ModbusServerFactory ?e ?c ?f ?i ?w1] =>
      destruct (ModbusServerFactory_cells e c f i w1)
        as (fac & ctl & Hret & _ & Hfac & _ & _ & _ & _ & Htr);
      destruct (ModbusServerFactory e c f i w1) as [[fac'|ex] w2]
  end; simplify_eq/=.
  eexists fac, _, ctl, [].
  destruct (bind_TCP reactor (Defaults_Port env)) as [[]|ex]; simpl.
  all: split; [exact Hfac|]; split; [done|].
  all: rewrite Htr, <- !app_assoc, drop_app_length; done.
Qed.

Lemma StartTcpServer_outcome_witness :
  ∃ fac dec ctl,
    heap (StartTcpServer (demo_env demo_read) demo_reactor (PyRef 0%nat) PyNone
                         demo_start).2 !! fac =
      Some (ModbusServerFactory_obj dec (PyFramerClass ModbusSocketFramer)
                                    (PyRef 0%nat) ctl) ∧
    (StartTcpServer (demo_env demo_read) demo_reactor (PyRef 0%nat) PyNone
                    demo_start).1 = Raise (OtherException "CannotListenError") ∧
    new_events (StartTcpServer (demo_env demo_read) demo_reactor (PyRef 0%nat) PyNone)
               demo_start =
      [Log_info (Msg_StartingTcp 502); Call_listenTCP 502 fac].
Proof.
  destruct (StartTcpServer_outcome (demo_env demo_read) demo_reactor (PyRef 0%nat)
              PyNone demo_start) as (fac & dec & ctl & rest & H1 & H2 & H3).
  exists fac, dec, ctl. split; [exact H1|]. split; [exact H2|exact H3].
Defined.

(** X16.  [StartUdpServer] never starts a server.  It hands
    [reactor.listenUDP] the factory it has built, where Twisted takes the
    object to connect to the port: once the port is bound the reactor calls
    that object's [makeConnection], which a factory has not, and
    [AttributeError] leaves [StartUdpServer]; if the port cannot be bound,
    that error leaves it.  Either way [reactor.run] is never called. *)
Theorem StartUdpServer_never_runs env reactor context identity w :
  (StartUdpServer env reactor context identity w).1 =
    match bind_UDP reactor (Defaults_Port env) with
    | Return _ => Raise AttributeError
    | Raise ex => Raise ex
    end ∧
  (StartUdpServer env reactor context identity w).1 ≠ Return tt ∧
  ∃ fac dec st ctl,
    heap (StartUdpServer env reactor context identity w).2 !! fac =
      Some (ModbusServerFactory_obj dec (PyFramerClass ModbusSocketFramer) st ctl) ∧
    new_events (StartUdpServer env reactor context identity) w =
      Log_info (Msg_StartingUdp (Defaults_Port env)) ::
      (if isinstance_ModbusDeviceIdentification (heap w) identity
       then [Call_Identity_update ctl identity] else []) ++
      [Call_listenUDP (Defaults_Port env) fac].
Proof.
  unfold new_events. rewrite StartUdpServer_eq.
  match goal with
  | |- context [ModbusServerFactory ?e ?c ?f ?i ?w1] =>
      destruct (ModbusServerFactory_cells e c f i w1)
        as (fac & ctl & Hret & _ & Hfac & _ & _ & _ & _ & Htr);
      destruct (ModbusServerFactory e c f i w1) as [[fac'|ex] w2]
  end; simplify_eq/=.
  erewrite makeConnection_factory by exact Hfac. simpl.
  split; [done|]. split; [by destruct (bind_UDP reactor (Defaults_Port env))|].
  eexists fac, _, _, ctl. split; [exact Hfac|].
  rewrite Htr, <- !app_assoc, drop_app_length. done.
Qed.

Lemma StartUdpServer_never_runs_witness :
  (StartUdpServer (demo_env demo_read) demo_reactor (PyRef 0%nat) PyNone
                  demo_start).1 = Raise AttributeError ∧
  ∃ fac,
    new_events (StartUdpServer (demo_env demo_read) demo_reactor (PyRef 0%nat) PyNone)
               demo_start =
      [Log_info (Msg_StartingUdp 502); Call_listenUDP 502 fac].
Proof.
  destruct (StartUdpServer_never_runs (demo_env demo_read) demo_reactor
              (PyRef 0%nat) PyNone demo_start)
    as (H1 & _ & fac & dec & st & ctl & _ & H2).
  split; [exact H1|]. exists fac. exact H2.
Defined.

(** X17.  A framer passed to [StartSerialServer] goes through the factory's own
    default: a framer that is false in Python's sense, [None] in particular,
    gives the factory [ModbusSocketFramer], not the [ModbusAsciiFramer] of
    the signature; any other value is kept.  The serial port is opened for
    a handler of that factory. *)
Theorem StartSerialServer_framer_default env context identity framer kwargs dev w :
  kwargs !! "device"%string = Some dev →
  ∃ fac dec st ctl protocol fr,
    heap (StartSerialServer env context identity (Some framer) kwargs w).2 !! fac =
      Some (ModbusServerFactory_obj dec
              (if truthy env (heap w) framer then framer
               else PyFramerClass ModbusSocketFramer) st ctl) ∧
    heap (StartSerialServer env context identity (Some framer) kwargs w).2
      !! protocol = Some (ModbusProtocol_obj fac fr) ∧
    serial_ports
      (new_events (StartSerialServer env context identity (Some framer) kwargs) w) =
      [(protocol, dev, Defaults_Baudrate env)].
Proof.
  intros Hdev.
  unfold new_events, StartSerialServer, kwargs_getitem, bind, buildProtocol,
    alloc, emit, ret.
  rewrite Hdev. cbn -[ModbusServerFactory].
  match goal with
  | |- context [ModbusServerFactory ?e ?c ?f ?i ?w1] =>
      destruct (ModbusServerFactory_cells e c f i w1)
        as (fac & ctl & Hret & _ & Hfac & _ & _ & _ & _ & Htr);
      destruct (ModbusServerFactory e c f i w1) as [[fac'|ex] w2]
  end; simplify_eq/=.
  eexists fac, _, _, ctl, (length (heap w2)), None.
  split; [by apply lookup_app_l_Some|].
  split; [by rewrite lookup_app_r, Nat.sub_diag by lia|].
  rewrite Htr, <- !app_assoc, drop_app_length.
  rewrite !serial_ports_app. simpl.
  by destruct (isinstance_ModbusDeviceIdentification (heap w) identity).
Qed.

Lemma StartSerialServer_framer_default_witness :
  ∃ fac dec st ctl protocol fr,
    heap (StartSerialServer (demo_env demo_read) (PyRef 0%nat) PyNone (Some PyNone)
            {[ "device"%string := PyStr "/dev/ttyS0" ]} demo_start).2 !! fac =
      Some (ModbusServerFactory_obj dec (PyFramerClass ModbusSocketFramer) st ctl) ∧
    heap (StartSerialServer (demo_env demo_read) (PyRef 0%nat) PyNone (Some PyNone)
            {[ "device"%string := PyStr "/dev/ttyS0" ]} demo_start).2
      !! protocol = Some (ModbusProtocol_obj fac fr) ∧
    serial_ports
      (new_events
         (StartSerialServer (demo_env demo_read) (PyRef 0%nat) PyNone (Some PyNone)
            {[ "device"%string := PyStr "/dev/ttyS0" ]}) demo_start) =
      [(protocol, PyStr "/dev/ttyS0", 19200)].
Proof.
  apply (StartSerialServer_framer_default (demo_env demo_read) (PyRef 0%nat) PyNone
           PyNone {[ "device"%string := PyStr "/dev/ttyS0" ]}
           (PyStr "/dev/ttyS0") demo_start).
  reflexivity.
Defined.

(** X18.  Without the [device] keyword [StartSerialServer] raises [KeyError]
    before anything else happens: nothing is logged, no factory or handler
    is built and no port is opened, whatever the other arguments are. *)
Theorem StartSerialServer_needs_device env context identity framer kwargs w :
  kwargs !! "device"%string = None →
  StartSerialServer env context identity framer kwargs w = (Raise KeyError, w).
Proof.
  intros Hdev.
  unfold StartSerialServer, bind at 1.
  unfold kwargs_getitem at 1. rewrite Hdev.
  reflexivity.
Qed.

Lemma StartSerialServer_needs_device_witness :
  StartSerialServer (demo_env demo_read) (PyRef 0%nat) PyNone None
    {[ "baudrate"%string := PyInt 9600 ]} demo_start = (Raise KeyError, demo_start).
Proof.
  exact (StartSerialServer_needs_device (demo_env demo_read) (PyRef 0%nat) PyNone
           None {[ "baudrate"%string := PyInt 9600 ]} demo_start eq_refl).
Defined.

(** ** [install_specialized_reactor] *)

Lemma install_loop_all_fail plat reactors :
  Forall (λ r, ∃ ex, reactor_install plat r = Raise ex) reactors →
  install_loop plat reactors =
    (false, map Call_install reactors ++ [Log_No_specialized_reactor]).
Proof.
  induction 1 as [|r reactors [ex Hr] _ IH]; [done|].
  simpl. by rewrite Hr, IH.
Qed.

Lemma install_loop_first plat before r after u :
  Forall (λ r, ∃ ex, reactor_install plat r = Raise ex) before →
  reactor_install plat r = Return u →
  install_loop plat (before ++ r :: after) =
    (true, map Call_install before ++ [Call_install r; Log_Installed r]).
Proof.
  intros Hbefore Hr.
  induction Hbefore as [|r' before [ex Hr'] _ IH]; simpl.
  - by rewrite Hr.
  - by rewrite Hr', IH.
Qed.

Lemma install_loop_result plat reactors :
  (install_loop plat reactors).1 = true ↔
  ∃ r u, r ∈ reactors ∧ reactor_install plat r = Return u.
Proof.
  induction reactors as [|r reactors IH]; simpl.
  - split; [done|]. intros (r & u & Hr & _). by apply elem_of_nil in Hr.
  - destruct (reactor_install plat r) as [u|ex] eqn:Hr; simpl.
    + split; [|done]. intros _. exists r, u. split; [left|done].
    + rewrite IH. split.
      * intros (r' & u & Hin & Hr'). exists r', u. split; [by right|done].
      * intros (r' & u & Hin & Hr'). exists r', u. split; [|done].
        apply elem_of_cons in Hin as [->|Hin]; [congruence|done].
Qed.

Lemma import_from_all plat names :
  (∀ r, import_module plat r = Return tt) → import_from plat names = Return tt.
Proof.
  intros Hall. induction names as [|r names IH]; [done|].
  simpl. by rewrite Hall.
Qed.

(** X19.  The three imports stand outside the [try]: if any one of the three
    reactor modules cannot be imported, the function raises and [install]
    is called on no reactor, not even on one that was imported before the
    failing one. *)
Theorem install_specialized_reactor_import_failure plat r ex :
  import_module plat r = Raise ex →
  ∃ ex', install_specialized_reactor plat = (Raise ex', []).
Proof.
  intros Hr. unfold install_specialized_reactor. simpl.
  destruct (import_module plat epollreactor) as [[]|e1] eqn:H1; [|by eexists].
  destruct (import_module plat kqreactor) as [[]|e2] eqn:H2; [|by eexists].
  destruct (import_module plat iocpreactor) as [[]|e3] eqn:H3; [|by eexists].
  destruct r; congruence.
Qed.

Lemma install_specialized_reactor_import_failure_witness :
  ∃ ex', install_specialized_reactor demo_linux = (Raise ex', []).
Proof.
  exact (install_specialized_reactor_import_failure demo_linux kqreactor
           (OtherException "ImportError") eq_refl).
Defined.

(** X20.  Once the three modules are imported the function never raises, whatever
    [install] raises, [SystemExit] and [KeyboardInterrupt] included (the
    [except] is bare); it returns [True] exactly when the [install] of one
    of the three reactors returns. *)
Theorem install_specialized_reactor_never_raises plat :
  (∀ r, import_module plat r = Return tt) →
  ∃ b,
    (install_specialized_reactor plat).1 = Return b ∧
    (b = true ↔ ∃ r u, reactor_install plat r = Return u).
Proof.
  intros Hall. unfold install_specialized_reactor.
  rewrite (import_from_all plat _ Hall). eexists. split; [done|].
  rewrite install_loop_result. split.
  - intros (r & u & _ & Hr). eauto.
  - intros (r & u & Hr). exists r, u. split; [|done].
    destruct r; set_solver.
Qed.

Lemma install_specialized_reactor_never_raises_witness :
  ∃ b,
    (install_specialized_reactor demo_platform).1 = Return b ∧
    (b = true ↔ ∃ r u, reactor_install demo_platform r = Return u).
Proof.
  apply (install_specialized_reactor_never_raises demo_platform).
  intros r. reflexivity.
Defined.

(** X21.  The reactors are tried in the order epoll, kqueue, IOCP and the first
    one whose [install] returns ends the loop: [install] is called on the
    reactors before it and on it, on none after it, and the installation is
    logged.  When no [install] returns, all three are tried, the failure is
    logged and the result is [False]. *)
Theorem install_specialized_reactor_first_wins plat :
  (∀ r, import_module plat r = Return tt) →
  (∀ before r after u,
     [epollreactor; kqreactor; iocpreactor] = before ++ r :: after →
     Forall (λ r', ∃ ex, reactor_install plat r' = Raise ex) before →
     reactor_install plat r = Return u →
     install_specialized_reactor plat =
       (Return true, map Call_install before ++ [Call_install r; Log_Installed r])) ∧
  ((∀ r, ∃ ex, reactor_install plat r = Raise ex) →
   install_specialized_reactor plat =
     (Return false,
      [Call_install epollreactor; Call_install kqreactor; Call_install iocpreactor;
       Log_No_specialized_reactor])).
Proof.
  intros Hall. unfold install_specialized_reactor.
  rewrite (import_from_all plat _ Hall). split.
  - intros before r after u -> Hbefore Hr.
    by rewrite (install_loop_first plat before r after u Hbefore Hr).
  - intros Hfail. rewrite install_loop_all_fail; [done|].
    repeat constructor; apply Hfail.
Qed.

Lemma install_specialized_reactor_first_wins_witness :
  install_specialized_reactor demo_platform =
    (Return true,
     [Call_install epollreactor; Call_install kqreactor; Log_Installed kqreactor]) ∧
  install_calls (install_specialized_reactor demo_platform).2 =
    [epollreactor; kqreactor].
Proof.
  assert (install_specialized_reactor demo_platform =
          (Return true,
           [Call_install epollreactor; Call_install kqreactor;
            Log_Installed kqreactor])) as E.
  { apply (proj1 (install_specialized_reactor_first_wins demo_platform
                    (λ r, eq_refl))
             [epollreactor] kqreactor [iocpreactor] tt eq_refl).
    - repeat constructor. by exists SystemExit.
    - reflexivity. }
  split; [exact E|]. by rewrite E.
Defined.

(** ** What [dataReceived] never touches *)

(** X10.  [dataReceived] creates no object and changes nothing but the buffer of
    the handler's own framer and datastore contexts: handlers, factories,
    control blocks and the framers of other handlers are left as they
    were, whether it returns or raises. *)
Theorem dataReceived_changes_only_buffer_and_store env self data w :
  length (heap (dataReceived env self data w).2) = length (heap w) ∧
  ∀ r o,
    heap w !! r = Some o →
    is_context o = false →
    (∀ fac, heap w !! self ≠ Some (ModbusProtocol_obj fac (Some r))) →
    heap (dataReceived env self data w).2 !! r = Some o.
Proof.
  destruct (dataReceived_footprint env self data w)
    as [->|(fac & f & c & d & b & b' & [Hp Hf] & Hst)]; [done|].
  split.
  - by rewrite (store_steps_length _ _ Hst), length_insert.
  - intros r o Hr Ho Hown.
    eapply store_steps_other; [exact Hst| |done].
    rewrite list_lookup_insert_ne; [done|].
    intros ->. by destruct (Hown fac).
Qed.

Lemma dataReceived_changes_only_buffer_and_store_witness :
  heap (dataReceived (demo_env demo_read) 5%nat [Byte.x05; Byte.x01; Byte.x09]
                     (demo_two [] [Byte.x07])).2 !! 8%nat =
    Some (Framer_obj ModbusSocketFramer 2%nat [Byte.x07]).
Proof.
  apply (proj2 (dataReceived_changes_only_buffer_and_store (demo_env demo_read)
                  5%nat [Byte.x05; Byte.x01; Byte.x09] (demo_two [] [Byte.x07]))
           8%nat).
  - reflexivity.
  - reflexivity.
  - intros fac. discriminate.
Defined.

(** ** The log line of the [except] suite *)

(** X22.  The log line of the [except] suite is built before the error
    response.  When the exception caught cannot be converted to a string,
    what the conversion raises leaves [execute]: no error response is
    built, nothing is logged, serialised or written, and the store stays as
    the failed execution left it. *)
Theorem execute_unformattable env self request w ex ex' :
  (execute_try self request w).1 = Raise ex →
  isinstance_Exception ex = true →
  PyExc_str ex = Raise ex' →
  execute env self request w = (Raise ex', (execute_try self request w).2) ∧
  (execute_response self request w).1 = Raise ex' ∧
  new_events (execute env self request) w = [].
Proof.
  intros Hex Hi Hstr.
  destruct (execute_try_footprint self request w) as [Htr _].
  assert (execute env self request w = (Raise ex', (execute_try self request w).2))
    as E.
  { unfold execute, bind. rewrite execute_response_eq.
    destruct (execute_try self request w) as [[r|e] w1]; simplify_eq/=.
    by rewrite Hi, Hstr. }
  split; [exact E|]. split.
  - rewrite execute_response_eq.
    destruct (execute_try self request w) as [[r|e] w1]; simplify_eq/=.
    by rewrite Hi, Hstr.
  - apply new_events_app. by rewrite E, app_nil_r.
Qed.

Lemma execute_unformattable_witness :
  (execute (demo_env demo_unprintable) 5%nat (demo_unprintable 5 1)
           (demo_connected [])).1 = Raise (OtherException "UnicodeEncodeError") ∧
  writes (new_events (execute (demo_env demo_unprintable) 5%nat
                              (demo_unprintable 5 1)) (demo_connected [])) = [].
Proof.
  destruct (execute_unformattable (demo_env demo_unprintable) 5%nat
              (demo_unprintable 5 1) (demo_connected [])
              (Unprintable "Exception" (OtherException "UnicodeEncodeError"))
              (OtherException "UnicodeEncodeError") eq_refl eq_refl eq_refl)
    as (H1 & _ & H2).
  split; [by rewrite H1|by rewrite H2].
Defined.
